(** * A shallow embedding of FGC_Data.py (start.gg tournament data collector)

    The Python module [FGC_Data.py] has two classes:
    - [SmartStartGGAPI]: a request queue, a lock-protected rate limiter and a
      retrying HTTP executor ([make_safe_request]);
    - [TournamentDataCollector]: the pipeline that resolves the competitors of
      a seed tournament, their tournaments, the tournament details and the
      head-to-head matches between competitors.

    Python values are modelled as follows: integers as [Z], strings as
    [string], a [dict] as an association list with Python's insertion-order
    and update-in-place semantics, JSON payloads as the [json] type below,
    and raised exceptions as the [Raise] branch of [result]. *)

From Stdlib Require Import List String Ascii ZArith Bool Lia.
Import ListNotations.
Open Scope string_scope.
Open Scope Z_scope.
Set Warnings "-register-all".

(** ** Python exceptions and the result of a Python computation *)

Inductive exc : Type :=
| TypeError
| AttributeError
| KeyError
| IndexError.

Inductive result (A : Type) : Type :=
| Ok (a : A)
| Raise (e : exc).
Arguments Ok {A} a.
Arguments Raise {A} e.

Definition bind {A B : Type} (m : result A) (k : A -> result B) : result B :=
  match m with
  | Ok a => k a
  | Raise e => Raise e
  end.

Notation "x <- m ;; k" := (bind m (fun x => k))
  (at level 61, m at next level, right associativity).

(** ** Python dictionaries

    A [dict] keeps its keys in insertion order; assigning to a present key
    replaces the value in place, assigning to a new key appends it. *)

Section Dict.
Context {K V : Type} (eqb : K -> K -> bool).

Fixpoint dict_get (d : list (K * V)) (k : K) : option V :=
  match d with
  | [] => None
  | (k', v) :: r => if eqb k k' then Some v else dict_get r k
  end.

(** [d[k] = v] *)
Fixpoint dict_set (d : list (K * V)) (k : K) (v : V) : list (K * V) :=
  match d with
  | [] => [(k, v)]
  | (k', v') :: r => if eqb k k' then (k', v) :: r else (k', v') :: dict_set r k v
  end.

(** [d.update(e)] *)
Definition dict_update (d e : list (K * V)) : list (K * V) :=
  fold_left (fun acc kv => dict_set acc (fst kv) (snd kv)) e d.

Definition dict_mem (d : list (K * V)) (k : K) : bool :=
  match dict_get d k with Some _ => true | None => false end.
End Dict.

(** ** Decimal rendering of integers, as [str(int)] *)

Fixpoint uint_str (u : Decimal.uint) : string :=
  match u with
  | Decimal.Nil => ""
  | Decimal.D0 r => "0" ++ uint_str r
  | Decimal.D1 r => "1" ++ uint_str r
  | Decimal.D2 r => "2" ++ uint_str r
  | Decimal.D3 r => "3" ++ uint_str r
  | Decimal.D4 r => "4" ++ uint_str r
  | Decimal.D5 r => "5" ++ uint_str r
  | Decimal.D6 r => "6" ++ uint_str r
  | Decimal.D7 r => "7" ++ uint_str r
  | Decimal.D8 r => "8" ++ uint_str r
  | Decimal.D9 r => "9" ++ uint_str r
  end%string.

Definition z_str (z : Z) : string :=
  match Z.to_int z with
  | Decimal.Pos u => uint_str u
  | Decimal.Neg u => "-" ++ uint_str u
  end%string.

(** ** JSON payloads as returned by [response.json()] *)

Inductive json : Type :=
| JNull
| JBool (b : bool)
| JInt (z : Z)
| JStr (s : string)
| JList (l : list json)
| JObj (kv : list (string * json)).

(** Python truthiness of a decoded JSON value. *)
Definition truthy (j : json) : bool :=
  match j with
  | JNull => false
  | JBool b => b
  | JInt z => negb (z =? 0)
  | JStr s => negb (String.eqb s "")
  | JList l => match l with [] => false | _ => true end
  | JObj kv => match kv with [] => false | _ => true end
  end.

(** [o.get(k, d)]: only a dict has [get]; [None.get] raises. *)
Definition py_get (o : json) (k : string) (d : json) : result json :=
  match o with
  | JObj kv => Ok (match dict_get String.eqb kv k with Some v => v | None => d end)
  | _ => Raise AttributeError
  end.

(** [o[k]] for a string key. *)
Definition py_index (o : json) (k : string) : result json :=
  match o with
  | JObj kv => match dict_get String.eqb kv k with Some v => Ok v | None => Raise KeyError end
  | _ => Raise TypeError
  end.

(** [o[i]] for a list index. *)
Definition py_nth (o : json) (i : nat) : result json :=
  match o with
  | JList l => match nth_error l i with Some v => Ok v | None => Raise IndexError end
  | JObj _ => Raise KeyError
  | _ => Raise TypeError
  end.

(** [len(o)] *)
Definition py_len (o : json) : result Z :=
  match o with
  | JList l => Ok (Z.of_nat (List.length l))
  | JObj kv => Ok (Z.of_nat (List.length kv))
  | JStr s => Ok (Z.of_nat (String.length s))
  | _ => Raise TypeError
  end.

(** [repr] and [str] of a decoded JSON value (string escapes not modelled). *)
Fixpoint py_repr (j : json) : string :=
  match j with
  | JNull => "None"
  | JBool true => "True"
  | JBool false => "False"
  | JInt z => z_str z
  | JStr s => "'" ++ s ++ "'"
  | JList l =>
      "[" ++ (fix go (l : list json) : string :=
                match l with
                | [] => ""
                | [x] => py_repr x
                | x :: r => py_repr x ++ ", " ++ go r
                end) l ++ "]"
  | JObj kv =>
      "{" ++ (fix go (kv : list (string * json)) : string :=
                match kv with
                | [] => ""
                | [(k, v)] => "'" ++ k ++ "': " ++ py_repr v
                | (k, v) :: r => "'" ++ k ++ "': " ++ py_repr v ++ ", " ++ go r
                end) kv ++ "}"
  end%string.

Definition py_str (j : json) : string :=
  match j with
  | JStr s => s
  | _ => py_repr j
  end.

(** ** [TournamentDataCollector.get_set_score]

    [resp] is [self.api.results[f"score_{set_id}"]['data']], i.e. the value
    returned by [make_safe_request] for the [SetScore] query: the decoded
    [data] object, or [JNull] for [None] when the request failed. The
    stored record itself is a non-empty dict, hence always truthy. *)
Definition slot_score (slot : json) : result json :=
  st <- py_get slot "standing" (JObj []) ;;
  stats <- py_get st "stats" (JObj []) ;;
  sc <- py_get stats "score" (JObj []) ;;
  py_get sc "value" (JInt 0).

Definition get_set_score (resp : json) : result string :=
  if truthy resp then
    s <- py_index resp "set" ;;
    if truthy s then
      slots <- py_index s "slots" ;;
      n <- py_len slots ;;
      if n =? 2 then
        s0 <- py_nth slots 0 ;;
        score1 <- slot_score s0 ;;
        s1 <- py_nth slots 1 ;;
        score2 <- slot_score s1 ;;
        Ok (py_str score1 ++ "-" ++ py_str score2)%string
      else Ok "0-0"%string
    else Ok "0-0"%string
  else Ok "0-0"%string.

(** A slot of the [SetScore] payload carrying score value [v]. *)
Definition score_slot (eid : Z) (v : json) : json :=
  JObj [("entrant", JObj [("id", JInt eid)]);
        ("standing", JObj [("stats", JObj [("score", JObj [("value", v)])])])].

Example get_set_score_3_1 :
  get_set_score (JObj [("set", JObj [("slots", JList [score_slot 10 (JInt 3); score_slot 11 (JInt 1)])])])
  = Ok "3-1"%string.
Proof. reflexivity. Qed.

(** ** Match records of the [TournamentSets] query

    The GraphQL schema always returns the requested keys, so a record field
    is present; a nullable field is an [option] whose [None] is JSON [null].
    [slot.get('entrant')] is [None] for a bye. *)

Record player := { pl_id : option Z; pl_tag : option string }.
(** [participant['player']]: [None] is a [null] player. *)
Record participant := { p_player : option player }.
(** [entrant['participants']]: [None] is a [null] list. *)
Record entrant := { e_participants : option (list participant) }.
Record standing := { s_placement : option Z }.
Record slot := { sl_entrant : option entrant; sl_standing : option standing }.
Record set_data := { set_id : Z; set_slots : option (list slot) }.

(** The per-competitor record [player_details[player_id]]. *)
Record detail := { d_id : Z; d_tag : option string; d_placement : option Z }.

(** The emitted head-to-head outcome (the dict returned by
    [analyze_set_for_h2h]; [tournament_date], a [datetime] rendering of
    [startAt], is left out). *)
Record h2h := {
  player1_id : Z; player1_tag : option string;
  player2_id : Z; player2_tag : option string;
  winner_id : Z; winner_tag : option string;
  loser_id : Z; loser_tag : option string;
  score : string;
  h_set_id : Z;
  tournament_name : string }.

(** [player_id in target_player_ids] *)
Definition is_target (targets : list Z) (id : Z) : bool := existsb (Z.eqb id) targets.

(** [players_in_set.add(player_id)], the set kept in insertion order. *)
Definition set_add (s : list Z) (x : Z) : list Z :=
  if existsb (Z.eqb x) s then s else s ++ [x].

(** [standing = slot.get('standing', {}) or {}] then
    [standing.get('placement') if standing else None]. *)
Definition slot_placement (s : slot) : option Z :=
  match sl_standing s with
  | Some st => s_placement st
  | None => None
  end.

Definition scan_state := (list Z * list (Z * detail))%type.

(** The inner loop [for participant in entrant.get('participants', [])]. *)
Fixpoint scan_participants (targets : list Z) (plc : option Z)
    (ps : list participant) (st : scan_state) : result scan_state :=
  match ps with
  | [] => Ok st
  | p :: r =>
      match p_player p with
      | None => Raise AttributeError   (* [None.get('id')] *)
      | Some pd =>
          match pl_id pd with
          | Some id =>
              if is_target targets id then
                scan_participants targets plc r
                  (set_add (fst st) id,
                   dict_set Z.eqb (snd st) id
                     {| d_id := id; d_tag := pl_tag pd; d_placement := plc |})
              else scan_participants targets plc r st
          | None => scan_participants targets plc r st
          end
      end
  end.

(** The outer loop [for slot in slots]; a bye ([not entrant]) is skipped. *)
Fixpoint scan_slots (targets : list Z) (sl : list slot) (st : scan_state)
    : result scan_state :=
  match sl with
  | [] => Ok st
  | s :: r =>
      match sl_entrant s with
      | None => scan_slots targets r st
      | Some e =>
          match e_participants e with
          | None => Raise TypeError   (* iterating over [None] *)
          | Some ps =>
              st' <- scan_participants targets (slot_placement s) ps st ;;
              scan_slots targets r st'
          end
      end
  end.

Definition dict_index {V : Type} (d : list (Z * V)) (k : Z) : result V :=
  match dict_get Z.eqb d k with Some v => Ok v | None => Raise KeyError end.

(** [list(players_in_set)]: a two-element Python set lists its elements in
    an order fixed by hashing, not by insertion; [swap] says whether the
    order is the reverse of insertion. *)
Definition list_of_set (swap : bool) (s : list Z) : list Z :=
  if swap then rev s else s.

(** Python truthiness of [winner_id] ([None] or the integer [0] are false). *)
Definition truthy_id (w : option Z) : bool :=
  match w with Some z => negb (z =? 0) | None => false end.

(** [placement == 1]; [None == 1] is false. *)
Definition placement_is_1 (p : option Z) : bool :=
  match p with Some z => z =? 1 | None => false end.

(** [TournamentDataCollector.analyze_set_for_h2h]. [score_resp] is the
    payload the secondary [SetScore] request returns for this set (used by
    [get_set_score]); [tname] is [tourney_data.get('name', 'Unknown')]. *)
Definition analyze_set_for_h2h (targets : list Z) (tname : string) (swap : bool)
    (score_resp : json) (sd : set_data) : result (option h2h) :=
  match set_slots sd with
  | None => Raise TypeError   (* [len(None)] *)
  | Some slots =>
      if negb (Nat.eqb (List.length slots) 2) then Ok None else
      st <- scan_slots targets slots ([], []) ;;
      let '(players_in_set, player_details) := st in
      if Nat.eqb (List.length players_in_set) 2 then
        let player_ids := list_of_set swap players_in_set in
        let id0 := nth 0 player_ids 0 in
        let id1 := nth 1 player_ids 0 in
        player1 <- dict_index player_details id0 ;;
        player2 <- dict_index player_details id1 ;;
        let winner_id0 :=
          if placement_is_1 (d_placement player1) then Some (d_id player1)
          else if placement_is_1 (d_placement player2) then Some (d_id player2)
          else None in
        match winner_id0 with
        | Some w =>
            if truthy_id winner_id0 then
              winner <- dict_index player_details w ;;
              let loser_id0 := if negb (id0 =? w) then id0 else id1 in
              loser <- dict_index player_details loser_id0 ;;
              sc <- get_set_score score_resp ;;
              Ok (Some {| player1_id := d_id player1; player1_tag := d_tag player1;
                          player2_id := d_id player2; player2_tag := d_tag player2;
                          winner_id := d_id winner; winner_tag := d_tag winner;
                          loser_id := d_id loser; loser_tag := d_tag loser;
                          score := sc; h_set_id := set_id sd;
                          tournament_name := tname |})
            else Ok None
        | None => Ok None
        end
      else Ok None
  end.

(** Building blocks for concrete match records. *)
Definition mk_participant (id : Z) (tag : string) : participant :=
  {| p_player := Some {| pl_id := Some id; pl_tag := Some tag |} |}.
Definition mk_slot (ids : list (Z * string)) (plc : Z) : slot :=
  {| sl_entrant := Some {| e_participants :=
                           Some (map (fun it => mk_participant (fst it) (snd it)) ids) |};
     sl_standing := Some {| s_placement := Some plc |} |}.

Definition score_resp2 (v1 v2 : json) : json :=
  JObj [("set", JObj [("slots", JList [score_slot 1 v1; score_slot 2 v2])])].

Example analyze_example :
  option_map winner_id
    (match analyze_set_for_h2h [7; 8] "T" false (score_resp2 (JInt 3) (JInt 1))
             {| set_id := 99; set_slots := Some [mk_slot [(7, "A")] 1; mk_slot [(8, "B")] 2] |}
     with Ok o => o | Raise _ => None end) = Some 7.
Proof. reflexivity. Qed.

(** ** [SmartStartGGAPI.make_safe_request]: the retry loop

    The k-th call of [requests.post] (k = 0, 1, ...) is answered by
    [resp k]: it raises (connection error, timeout), or it returns a status
    code, the [Retry-After] header ([None]: absent; [Some None]: present but
    not an integer, so [int(...)] raises [ValueError]) and the decoded body.
    The rate-limiter wait in front of each post is the subject of the
    timing model below; here the loop records the posts and the sleeps of
    the retry logic. The result is [data['data']], with [JNull] for [None]. *)

Inductive response : Type :=
| PostRaises
| Resp (status : Z) (retry_after : option (option Z)) (body : json).

Inductive event : Type :=
| Post
| Sleep (secs : Z).

(** [needle in hay] for strings: a substring test. *)
Fixpoint str_contains (needle hay : string) : bool :=
  match hay with
  | EmptyString => String.eqb needle EmptyString
  | String _ r => String.prefix needle hay || str_contains needle r
  end.

(** ['errors' in data] *)
Definition has_errors (data : json) : result bool :=
  match data with
  | JObj kv => Ok (dict_mem String.eqb kv "errors")
  | JList l => Ok (existsb (fun j => match j with JStr s => String.eqb s "errors" | _ => false end) l)
  | JStr s => Ok (str_contains "errors" s)
  | _ => Raise TypeError
  end.

(** The [except Exception] branch: back off unless this was the last attempt. *)
Definition backoff (retries attempt : nat) : list event :=
  if Nat.ltb attempt (retries - 1) then [Sleep (5 * Z.of_nat (attempt + 1))] else [].

(** [for attempt in range(retries)], with [k] attempts still to run. *)
Fixpoint attempts (retries : nat) (resp : nat -> response) (attempt k : nat)
    : json * list event :=
  match k with
  | O => (JNull, [])
  | S k' =>
      let '(r, ev) := attempts retries resp (S attempt) k' in
      let on_exc := (r, Post :: backoff retries attempt ++ ev)%list in
      match resp attempt with
      | PostRaises => on_exc
      | Resp status ra body =>
          if status =? 429 then
            match ra with
            | None => (r, Post :: Sleep 60 :: ev)
            | Some (Some n) =>
                (* [time.sleep] of a negative length raises [ValueError] *)
                if n <? 0 then on_exc else (r, Post :: Sleep n :: ev)
            | Some None => on_exc
            end
          else if 500 <=? status then (r, Post :: Sleep 8 :: ev)
          else if 400 <=? status then on_exc   (* [raise_for_status()] *)
          else
            match has_errors body with
            | Ok true => (JNull, [Post])
            | Ok false =>
                match py_index body "data" with
                | Ok d => (d, [Post])
                | Raise _ => on_exc
                end
            | Raise _ => on_exc
            end
      end
  end.

Definition make_safe_request (retries : nat) (resp : nat -> response) : json * list event :=
  attempts retries resp 0 retries.

Definition count_posts (ev : list event) : nat :=
  List.length (filter (fun e => match e with Post => true | _ => false end) ev).

(** The seconds spent in the retry loop's [time.sleep] calls. *)
Fixpoint total_sleep (ev : list event) : Z :=
  match ev with
  | [] => 0
  | Sleep n :: r => n + total_sleep r
  | Post :: r => total_sleep r
  end.

(** ** The rate limiter: the [with self.rate_limit_lock:] block

    Every worker thread runs the block below under one lock, so the blocks
    execute one after the other, in the order in which they acquire the
    lock (the list order). Times are microseconds, the resolution of
    [datetime]. For one execution of the block:
    - [arrive]: when the worker asks for the lock;
    - [oversleep]: how much longer [time.sleep] takes than requested;
    - [post_dur]: how long [requests.post] runs;
    - [post_raises]: whether [requests.post] raised, skipping
      [self.last_request_time = datetime.now()];
    - [hold_after]: time still spent holding the lock after the post (the
      429 and 5xx sleeps run inside the [with] block). *)

Definition min_interval : Z := 600000.

Record section := {
  arrive : Z; oversleep : Z; post_dur : Z; post_raises : bool; hold_after : Z }.

(** Limiter state: [last_request_time] and the time the lock is next free. *)
Record limiter := { last_request_time : Z; lock_free : Z }.

(** One execution of the block: returns the time [requests.post] starts. *)
Definition run_section (st : limiter) (s : section) : Z * limiter :=
  let acq := Z.max (arrive s) (lock_free st) in
  let time_since_last := acq - last_request_time st in
  let start :=
    if time_since_last <? min_interval
    then acq + (min_interval - time_since_last) + oversleep s
    else acq in
  let fin := start + post_dur s in
  if post_raises s then (start, {| last_request_time := last_request_time st; lock_free := fin |})
  else (start, {| last_request_time := fin; lock_free := fin + hold_after s |}).

(** The start times of the posts of a sequence of lock executions. *)
Fixpoint post_starts (st : limiter) (ss : list section) : list Z :=
  match ss with
  | [] => []
  | s :: r => let '(t, st') := run_section st s in t :: post_starts st' r
  end.

Definition well_timed (s : section) : Prop :=
  0 <= oversleep s /\ 0 <= post_dur s /\ 0 <= hold_after s.

(** ** Competitor tournament pages
    ([get_player_tournaments_simple], [get_additional_player_sets_pages])

    A set node of a [PlayerTournaments] page carries its event's game name
    and its tournament. [current_time] is read with [datetime.now()] per
    node; one run is short against the one-year window, so [now] is a
    single value here. *)

Record tournament_node := {
  t_id : Z; t_slug : string; t_name : string; t_startAt : option Z }.
Record set_node := { n_game : string; n_tournament : tournament_node }.

(** [{'slug': ..., 'name': ..., 'date': ...}] *)
Record tinfo := { ti_slug : string; ti_name : string; ti_date : Z }.

Section Pages.
(** [self.target_game_name] ([None] before the seed is resolved),
    [self.one_year_ago] and the current timestamp. *)
Variable target_game_name : option string.
Variable one_year_ago now : Z.

(** [if self.target_game_name and event_game != self.target_game_name] *)
Definition wrong_game (g : string) : bool :=
  match target_game_name with
  | Some t => negb (String.eqb t "") && negb (String.eqb g t)
  | None => false
  end.

(** [tournament_date and tournament_date >= one_year_ago and tournament_date <= current_time] *)
Definition in_window (d : option Z) : bool :=
  match d with
  | Some z => negb (z =? 0) && (one_year_ago <=? z) && (z <=? now)
  | None => false
  end.

(** The [for set_data in sets_data] loop, adding to [tournaments]. *)
Definition add_page (acc : list (Z * tinfo)) (nodes : list set_node) : list (Z * tinfo) :=
  fold_left
    (fun tournaments sd =>
       let t := n_tournament sd in
       if wrong_game (n_game sd) then tournaments
       else match t_startAt t with
            | Some d =>
                if in_window (Some d) then
                  dict_set Z.eqb tournaments (t_id t)
                    {| ti_slug := t_slug t; ti_name := t_name t; ti_date := d |}
                else tournaments
            | None => tournaments
            end)
    nodes acc.

(** [get_additional_player_sets_pages]: [page p] is the node list of page
    [p], or [None] when [result and result['data']] fails. *)
Definition get_additional_player_sets_pages (page : Z -> option (list set_node))
    (total_pages : Z) : list (Z * tinfo) :=
  let max_additional_pages := Z.min 4 (total_pages - 1) in
  fold_left
    (fun tournaments p =>
       match page p with
       | Some nodes => add_page tournaments nodes
       | None => tournaments
       end)
    (map (fun i => 2 + Z.of_nat i) (seq 0 (Z.to_nat max_additional_pages)))
    [].

(** [get_player_tournaments_simple]: [first] is page 1 with its
    [totalPages], or [None] when the first request gave no data. *)
Definition get_player_tournaments_simple (first : option (list set_node * Z))
    (page : Z -> option (list set_node)) : list (Z * tinfo) :=
  match first with
  | None => []
  | Some (nodes, total_pages) =>
      let tournaments := add_page [] nodes in
      if 1 <? total_pages then
        dict_update Z.eqb tournaments (get_additional_player_sets_pages page total_pages)
      else tournaments
  end.
End Pages.

(** ** [batch_process_tournament_data] and the per-slug cache

    A fetched tournament object is identified by the number of the request
    that produced it, so that identity ([is]) of cached objects is visible.
    [fetch_ok slug] says whether the [TournamentData] request for [slug]
    yields [result['data']['tournament']]. The network log lists the slugs
    requested, in order. *)

Record collector := {
  tournament_cache : list (string * nat);
  net_log : list string }.

(** [for tourney_id in tournament_ids: for player_data in ...: ... break] *)
Definition tournament_slugs (tournament_ids : list Z)
    (player_tournaments : list (Z * list (Z * tinfo))) : list (Z * string) :=
  fold_left
    (fun acc tid =>
       match find (fun pd => dict_mem Z.eqb (snd pd) tid) player_tournaments with
       | Some pd =>
           match dict_get Z.eqb (snd pd) tid with
           | Some ti => dict_set Z.eqb acc tid (ti_slug ti)
           | None => acc
           end
       | None => acc
       end)
    tournament_ids [].

(** [tournament_list[i:i+batch_size]] for [i in range(0, len, batch_size)]. *)
Fixpoint batches {A : Type} (fuel : nat) (n : nat) (l : list A) : list (list A) :=
  match fuel with
  | O => []
  | S f =>
      match l with
      | [] => []
      | _ => firstn n l :: batches f n (skipn n l)
      end
  end.

Section Batch.
Variable fetch_ok : string -> bool.

(** One batch: the queueing loop, [process_queue], and the storing loop.
    [details] is [tournament_details], mapping an id to an object. *)
Definition run_batch (c : collector) (details : list (Z * nat))
    (batch : list (Z * string)) : collector * list (Z * nat) :=
  (* first loop: cache hits, and the requests queued *)
  let '(details1, queued) :=
    fold_left
      (fun acc it =>
         let '(d, q) := acc in
         let '(tid, slug) := it in
         match dict_get String.eqb (tournament_cache c) slug with
         | Some obj => (dict_set Z.eqb d tid obj, q)
         | None => (d, (q ++ [it])%list)
         end)
      batch (details, []) in
  (* [process_queue]: one request per queued entry, results keyed by id *)
  let '(log, results) :=
    fold_left
      (fun acc it =>
         let '(log, res) := acc in
         let obj := if fetch_ok (snd it) then Some (List.length log) else None in
         ((log ++ [snd it])%list, dict_set Z.eqb res (fst it) obj))
      queued (net_log c, []) in
  (* second loop: store fetched tournaments *)
  let '(cache2, details2) :=
    fold_left
      (fun acc it =>
         let '(cache, d) := acc in
         let '(tid, slug) := it in
         if dict_mem String.eqb cache slug then (cache, d)
         else match dict_get Z.eqb results tid with
              | Some (Some obj) => (dict_set String.eqb cache slug obj, dict_set Z.eqb d tid obj)
              | _ => (cache, d)
              end)
      batch (tournament_cache c, details1) in
  ({| tournament_cache := cache2; net_log := log |}, details2).

(** The batch loop over [tournament_list = list(tournament_slugs.items())]. *)
Definition process_tournament_list (c : collector)
    (tournament_list : list (Z * string)) : collector * list (Z * nat) :=
  fold_left
    (fun acc batch => run_batch (fst acc) (snd acc) batch)
    (batches (List.length tournament_list) 12 tournament_list)
    (c, []).

Definition batch_process_tournament_data (c : collector) (tournament_ids : list Z)
    (player_tournaments : list (Z * list (Z * tinfo))) : collector * list (Z * nat) :=
  process_tournament_list c (tournament_slugs tournament_ids player_tournaments).
End Batch.

(** ** [collect_tournament_data]: the run's control flow

    [seed] is the competitor map returned by [get_tournament_players_and_game]
    (empty when the seed tournament could not be fetched), as id and gamer
    tag. [fetch pid] is what [get_player_tournaments_simple] returns or
    raises for competitor [pid] inside its worker. [finish] stands for the
    steps after the second early return (tournament details, histories,
    CSV files, shared tournaments, head-to-head extraction), which produce
    the returned summary or raise. *)

Section Collect.
Variable summary : Type.
Variable finish : list (Z * (string * list (Z * tinfo))) -> result summary.

(** [get_all_player_tournaments_parallel]: a competitor whose task raises
    (caught around [future.result()]) or returns an empty map is left out. *)
Definition get_all_player_tournaments_parallel (players : list (Z * string))
    (fetch : Z -> result (list (Z * tinfo))) : list (Z * (string * list (Z * tinfo))) :=
  fold_left
    (fun player_tournaments it =>
       match fetch (fst it) with
       | Ok [] => player_tournaments
       | Ok ts => dict_set Z.eqb player_tournaments (fst it) (snd it, ts)
       | Raise _ => player_tournaments
       end)
    players [].

Definition collect_tournament_data (seed : list (Z * string))
    (fetch : Z -> result (list (Z * tinfo))) : result (option summary) :=
  match seed with
  | [] => Ok None   (* "No players found in target tournament" *)
  | _ =>
      match get_all_player_tournaments_parallel seed fetch with
      | [] => Ok None   (* "No tournament data found for players" *)
      | player_tournaments =>
          s <- finish player_tournaments ;;
          Ok (Some s)
      end
  end.
End Collect.

(** ** [SmartStartGGAPI.add_to_queue] and [process_queue]

    A request identifier is an integer (a competitor or tournament id) or a
    string (a slug, ["score_<id>"], ["<id>_page<p>"]). The queue is a
    [queue.Queue], served first in, first out; the [priority] is stored
    and never read. The [timestamp] fields, the [print] and the
    [time.sleep(0.6)] after each request are not modelled. *)

Inductive key : Type :=
| KInt (z : Z)
| KStr (s : string).

Definition key_eqb (a b : key) : bool :=
  match a, b with
  | KInt x, KInt y => Z.eqb x y
  | KStr x, KStr y => String.eqb x y
  | _, _ => false
  end.

Record request := {
  rq_type : string; rq_id : key; rq_query : string;
  rq_variables : list (string * json); rq_priority : Z }.

(** [self.results[id] = {'type': ..., 'data': result, ...}] *)
Record stored := { st_type : string; st_data : json }.

Record api := { request_queue : list request; results : list (key * stored) }.

(** [variables or {}]: [None] and [{}] both give [{}]. *)
Definition add_to_queue (a : api) (query_type : string) (identifier : key) (query : string)
    (variables : option (list (string * json))) (priority : Z) : api :=
  {| request_queue :=
       (request_queue a ++
        [{| rq_type := query_type; rq_id := identifier; rq_query := query;
            rq_variables := match variables with Some v => v | None => [] end;
            rq_priority := priority |}])%list;
     results := results a |}.

Section Queue.
(** [answer query variables] is what [make_safe_request(query, variables)]
    returns ([JNull] for [None]); its retry loop is modelled above. *)
Variable answer : string -> list (string * json) -> json.

Definition serve (r : request) : stored :=
  {| st_type := rq_type r; st_data := answer (rq_query r) (rq_variables r) |}.

(** [while not self.request_queue.empty() and processed < max_requests]:
    the counter [processed] is the number of steps taken so far. *)
Fixpoint process_queue (max_requests : nat) (a : api) : api :=
  match max_requests with
  | O => a
  | S n =>
      match request_queue a with
      | [] => a
      | request_data :: q =>
          process_queue n
            {| request_queue := q;
               results := dict_set key_eqb (results a) (rq_id request_data) (serve request_data) |}
      end
  end.
End Queue.

(** ** [get_all_tournament_ids]

    The Python [set] is a list without duplicates; its iteration order is
    fixed by hashing, and only membership is used below. *)
Definition get_all_tournament_ids (player_tournaments : list (Z * (string * list (Z * tinfo))))
    : list Z :=
  fold_left
    (fun all_tournament_ids player_data =>
       fold_left set_add (map fst (snd (snd player_data))) all_tournament_ids)
    player_tournaments [].

(** ** [find_shared_tournaments] *)

(** [tournament_player_counts]: tournament id to the set of competitors
    listing it. *)
Definition tournament_player_counts (player_tournaments : list (Z * (string * list (Z * tinfo))))
    : list (Z * list Z) :=
  fold_left
    (fun counts player_data =>
       let player_id := fst player_data in
       fold_left
         (fun counts tourney_id =>
            let counts :=
              if negb (dict_mem Z.eqb counts tourney_id)
              then dict_set Z.eqb counts tourney_id [] else counts in
            dict_set Z.eqb counts tourney_id
              (set_add (match dict_get Z.eqb counts tourney_id with Some s => s | None => [] end)
                       player_id))
         (map fst (snd (snd player_data))) counts)
    player_tournaments [].

(** [{'slug': ..., 'name': ..., 'date': ..., 'players': ..., 'player_count': ...}] *)
Record shared := {
  sh_slug : string; sh_name : string; sh_date : Z; sh_players : list Z; sh_player_count : Z }.

Definition find_shared_tournaments (player_tournaments : list (Z * (string * list (Z * tinfo))))
    : list (Z * shared) :=
  fold_left
    (fun shared_tournaments kv =>
       let tourney_id := fst kv in
       let players_in_tourney := snd kv in
       if Nat.leb 2 (List.length players_in_tourney) then
         match find (fun player_data => dict_mem Z.eqb (snd (snd player_data)) tourney_id)
                    player_tournaments with
         | Some player_data =>
             match dict_get Z.eqb (snd (snd player_data)) tourney_id with
             | Some tourney_info =>
                 dict_set Z.eqb shared_tournaments tourney_id
                   {| sh_slug := ti_slug tourney_info; sh_name := ti_name tourney_info;
                      sh_date := ti_date tourney_info; sh_players := players_in_tourney;
                      sh_player_count := Z.of_nat (List.length players_in_tourney) |}
             | None => shared_tournaments
             end
         | None => shared_tournaments
         end
       else shared_tournaments)
    (tournament_player_counts player_tournaments) [].

(** ** [batch_process_tournament_sets]

    As for [run_batch]: a fetched tournament object is the number of the
    request that produced it, [fetch_ok slug] says whether the
    [TournamentSets] request for [slug] yields a tournament, and the
    network log lists the requested slugs. Every id of a batch is queued
    and served in that batch, so the [results] entries read are those of
    this batch's requests. *)
Definition batch_process_tournament_sets (fetch_ok : string -> bool) (log0 : list string)
    (shared_tournaments : list (Z * shared)) : list string * list (Z * nat) :=
  fold_left
    (fun acc batch =>
       let '(log, tournament_details) := acc in
       let '(log', results) :=
         fold_left
           (fun acc it =>
              let '(log, res) := acc in
              let obj := if fetch_ok (sh_slug (snd it)) then Some (List.length log) else None in
              ((log ++ [sh_slug (snd it)])%list, dict_set Z.eqb res (fst it) obj))
           batch (log, []) in
       (log',
        fold_left
          (fun d it =>
             match dict_get Z.eqb results (fst it) with
             | Some (Some obj) => dict_set Z.eqb d (fst it) obj
             | _ => d
             end)
          batch tournament_details))
    (batches (List.length shared_tournaments) 12 shared_tournaments)
    (log0, []).

(** ** Reading decoded JSON: iteration and comparisons *)

(** [for x in o]: a list gives its elements, a dict its keys, a string its
    characters; [None] and numbers raise. *)
Definition py_iter (o : json) : result (list json) :=
  match o with
  | JList l => Ok l
  | JObj kv => Ok (map (fun kv => JStr (fst kv)) kv)
  | JStr s => Ok (map (fun c => JStr (String c EmptyString)) (list_ascii_of_string s))
  | _ => Raise TypeError
  end.

(** The numeric value of a [bool] or [int] ([True == 1]). *)
Definition py_num (j : json) : option Z :=
  match j with
  | JBool b => Some (if b then 1 else 0)
  | JInt z => Some z
  | _ => None
  end.

(** [a == b] on decoded JSON values (a dict has distinct keys). *)
Fixpoint py_eq (a b : json) {struct a} : bool :=
  match a, b with
  | JNull, JNull => true
  | JStr s, JStr t => String.eqb s t
  | JList l, JList m =>
      (fix go (l m : list json) : bool :=
         match l, m with
         | [], [] => true
         | x :: l', y :: m' => py_eq x y && go l' m'
         | _, _ => false
         end) l m
  | JObj kv, JObj kw =>
      Nat.eqb (List.length kv) (List.length kw) &&
      (fix go (kv : list (string * json)) : bool :=
         match kv with
         | [] => true
         | (k, v) :: r =>
             match dict_get String.eqb kw k with
             | Some w => py_eq v w && go r
             | None => false
             end
         end) kv
  | _, _ =>
      match py_num a, py_num b with
      | Some x, Some y => x =? y
      | _, _ => false
      end
  end.

(** A dict key must be hashable: lists and dicts are not. *)
Definition py_hashable (j : json) : bool :=
  match j with JList _ | JObj _ => false | _ => true end.

(** [event_game == self.target_game_name], the target being a [str] or
    [None]. *)
Definition py_eq_name (g : json) (t : option string) : bool :=
  match g, t with
  | JStr s, Some t => String.eqb s t
  | JNull, None => true
  | _, _ => false
  end.

(** [x == player_id] for an integer [player_id]. *)
Definition py_eq_id (j : json) (player_id : Z) : bool :=
  match py_num j with Some z => z =? player_id | None => false end.

(** [event.get('videogame', {}).get('name', dflt)] *)
Definition event_game (event : json) (dflt : string) : result json :=
  vg <- py_get event "videogame" (JObj []) ;;
  py_get vg "name" (JStr dflt).

(** ** [find_player_data]: the three nested loops, with their early return *)

Fixpoint fpd_participants (player_id : Z) (event standing : json) (ps : list json)
    : result (option (json * json * json)) :=
  match ps with
  | [] => Ok None
  | participant :: r =>
      pl <- py_get participant "player" (JObj []) ;;
      id <- py_get pl "id" JNull ;;
      if py_eq_id id player_id then
        placement <- py_get standing "placement" (JInt 0) ;;
        event_name <- py_get event "name" (JStr "Unknown") ;;
        total_entrants <- py_get event "numEntrants" (JInt 0) ;;
        Ok (Some (placement, event_name, total_entrants))
      else fpd_participants player_id event standing r
  end.

Fixpoint fpd_standings (player_id : Z) (event : json) (sts : list json)
    : result (option (json * json * json)) :=
  match sts with
  | [] => Ok None
  | standing :: r =>
      ent <- py_get standing "entrant" (JObj []) ;;
      ps <- py_get ent "participants" (JList []) ;;
      psl <- py_iter ps ;;
      found <- fpd_participants player_id event standing psl ;;
      match found with
      | Some x => Ok (Some x)
      | None => fpd_standings player_id event r
      end
  end.

Fixpoint fpd_events (target_game_name : option string) (player_id : Z) (events : list json)
    : result (option (json * json * json)) :=
  match events with
  | [] => Ok None
  | event :: r =>
      eg <- event_game event "Unknown" ;;
      if negb (py_eq_name eg target_game_name) then fpd_events target_game_name player_id r
      else
        stn <- py_get event "standings" (JObj []) ;;
        nodes <- py_get stn "nodes" (JList []) ;;
        sts <- py_iter nodes ;;
        found <- fpd_standings player_id event sts ;;
        match found with
        | Some x => Ok (Some x)
        | None => fpd_events target_game_name player_id r
        end
  end.

(** Returns [(placement, event_name, total_entrants)]. *)
Definition find_player_data (target_game_name : option string) (tournament_data : json)
    (player_id : Z) : result (json * json * json) :=
  events <- py_get tournament_data "events" (JList []) ;;
  evl <- py_iter events ;;
  found <- fpd_events target_game_name player_id evl ;;
  Ok (match found with
      | Some x => x
      | None => (JInt 0, JStr "Unknown", JInt 0)
      end).

(** ** [create_combined_tournament_histories]

    [tournament_details] maps a tournament id to its decoded [tournament]
    object. The loop [for tourney_id in player_data['tournaments']] reads
    [player_data['tournaments'][tourney_id]], i.e. the pair's value, the
    map having distinct keys. *)

Record history_row := {
  hr_player_id : Z; hr_player_tag : string; hr_tournament_id : Z;
  hr_tournament_name : string; hr_tournament_slug : string; hr_tournament_date : string;
  hr_placement : json; hr_event_name : json; hr_total_entrants : json }.

Section Histories.
Variable target_game_name : option string.
(** [datetime.fromtimestamp(d).strftime('%Y-%m-%d')], in local time. *)
Variable format_date : Z -> string.

Definition history_record (tournament_details : list (Z * json)) (player_id : Z)
    (player_tag : string) (tourney_id : Z) (tournament_info : tinfo) : result history_row :=
  let date := if negb (ti_date tournament_info =? 0) then format_date (ti_date tournament_info)
              else "Unknown" in
  let mk placement event_name total_entrants :=
    {| hr_player_id := player_id; hr_player_tag := player_tag; hr_tournament_id := tourney_id;
       hr_tournament_name := ti_name tournament_info; hr_tournament_slug := ti_slug tournament_info;
       hr_tournament_date := date; hr_placement := placement; hr_event_name := event_name;
       hr_total_entrants := total_entrants |} in
  match dict_get Z.eqb tournament_details tourney_id with
  | Some td =>
      x <- find_player_data target_game_name td player_id ;;
      let '(placement, event_name, total_entrants) := x in
      let '(pl, en) := if truthy placement then (placement, event_name)
                       else (JInt 0, JStr "Unknown") in
      let te := if truthy total_entrants then total_entrants else JInt 0 in
      Ok (mk pl en te)
  | None => Ok (mk (JInt 0) (JStr "Unknown") (JInt 0))
  end.

Fixpoint player_histories (tournament_details : list (Z * json)) (player_id : Z)
    (player_tag : string) (tournaments : list (Z * tinfo)) : result (list history_row) :=
  match tournaments with
  | [] => Ok []
  | (tourney_id, tournament_info) :: r =>
      record <- history_record tournament_details player_id player_tag tourney_id tournament_info ;;
      rest <- player_histories tournament_details player_id player_tag r ;;
      Ok (record :: rest)
  end.

Fixpoint create_combined_tournament_histories
    (player_tournaments : list (Z * (string * list (Z * tinfo))))
    (tournament_details : list (Z * json)) : result (list history_row) :=
  match player_tournaments with
  | [] => Ok []
  | (player_id, (player_tag, tournaments)) :: r =>
      rows <- player_histories tournament_details player_id player_tag tournaments ;;
      rest <- create_combined_tournament_histories r tournament_details ;;
      Ok (rows ++ rest)%list
  end.
End Histories.

(** ** [extract_head_to_head_matches] and [extract_matches_from_tournament]

    The [TournamentSets] payload of a tournament, with the match records
    above. A [None] field is a JSON [null]: [None.get(...)] raises
    [AttributeError], iterating over [None] raises [TypeError]. *)

Record videogame := { vg_name : option string }.
Record sets_conn := { sc_nodes : option (list set_data) }.
Record sets_event := { ev_videogame : option videogame; ev_sets : option sets_conn }.
Record tourney := { td_name : string; td_events : option (list sets_event) }.

Definition opt_str_eqb (a b : option string) : bool :=
  match a, b with
  | Some x, Some y => String.eqb x y
  | None, None => true
  | _, _ => false
  end.

(** [event.get('videogame', {}).get('name', 'Unknown')] *)
Definition ev_game (e : sets_event) : result (option string) :=
  match ev_videogame e with
  | Some vg => Ok (vg_name vg)
  | None => Raise AttributeError
  end.

(** [event.get('sets', {}).get('nodes', [])], iterated *)
Definition ev_nodes (e : sets_event) : result (list set_data) :=
  match ev_sets e with
  | None => Raise AttributeError
  | Some c => match sc_nodes c with Some l => Ok l | None => Raise TypeError end
  end.

Section Extract.
Variable target_game_name : option string.
(** The order of [list(players_in_set)] for a match record. *)
Variable swap_of : set_data -> bool.
(** The [SetScore] payload returned for a set id. *)
Variable score_of : Z -> json.

Fixpoint extract_from_sets (targets : list Z) (tname : string) (sets : list set_data)
    : result (list h2h) :=
  match sets with
  | [] => Ok []
  | set_data :: r =>
      m <- analyze_set_for_h2h targets tname (swap_of set_data) (score_of (set_id set_data)) set_data ;;
      rest <- extract_from_sets targets tname r ;;
      Ok (match m with Some o => o :: rest | None => rest end)
  end.

Fixpoint extract_from_events (targets : list Z) (tname : string) (events : list sets_event)
    : result (list h2h) :=
  match events with
  | [] => Ok []
  | e :: r =>
      g <- ev_game e ;;
      if negb (opt_str_eqb g target_game_name) then extract_from_events targets tname r
      else
        sets <- ev_nodes e ;;
        ms <- extract_from_sets targets tname sets ;;
        rest <- extract_from_events targets tname r ;;
        Ok (ms ++ rest)%list
  end.

Definition extract_matches_from_tournament (tourney_data : tourney) (target_player_ids : list Z)
    : result (list h2h) :=
  match td_events tourney_data with
  | None => Raise TypeError
  | Some events => extract_from_events target_player_ids (td_name tourney_data) events
  end.

(** [target_player_ids = set(target_players.keys())] *)
Fixpoint extract_head_to_head_matches (tournament_details : list (Z * tourney))
    (target_players : list (Z * string)) : result (list h2h) :=
  match tournament_details with
  | [] => Ok []
  | (_, tourney_data) :: r =>
      matches <- extract_matches_from_tournament tourney_data (map fst target_players) ;;
      rest <- extract_head_to_head_matches r target_players ;;
      Ok (matches ++ rest)%list
  end.
End Extract.

(** ** [get_tournament_players_and_game]

    [data] is [result['data']] of the [TournamentPlayers] request ([JNull]
    when it failed); the stored record [result] itself is a non-empty dict.
    [players] maps [player['id']] to the [player] object; [game_name]
    starts as [None]. *)

Fixpoint gtp_participants (players : list (json * json)) (ps : list json)
    : result (list (json * json)) :=
  match ps with
  | [] => Ok players
  | participant :: r =>
      player <- py_index participant "player" ;;
      id <- py_index player "id" ;;
      if py_hashable id then gtp_participants (dict_set py_eq players id player) r
      else Raise TypeError
  end.

Fixpoint gtp_entrants (players : list (json * json)) (ents : list json)
    : result (list (json * json)) :=
  match ents with
  | [] => Ok players
  | entrant :: r =>
      ps <- py_index entrant "participants" ;;
      psl <- py_iter ps ;;
      players' <- gtp_participants players psl ;;
      gtp_entrants players' r
  end.

Fixpoint gtp_events (players : list (json * json)) (game_name : json) (events : list json)
    : result (list (json * json) * json) :=
  match events with
  | [] => Ok (players, game_name)
  | event :: r =>
      game_name' <- (if negb (truthy game_name) then event_game event "Unknown Game"
                     else Ok game_name) ;;
      eg <- event_game event "Unknown" ;;
      if negb (py_eq eg game_name') then gtp_events players game_name' r
      else
        ents <- py_get event "entrants" (JObj []) ;;
        nodes <- py_get ents "nodes" (JList []) ;;
        entl <- py_iter nodes ;;
        players' <- gtp_entrants players entl ;;
        gtp_events players' game_name' r
  end.

Definition get_tournament_players_and_game (data : json) : result (list (json * json) * json) :=
  if truthy data then
    t <- py_get data "tournament" JNull ;;
    if truthy t then
      tt <- py_index data "tournament" ;;
      events <- py_index tt "events" ;;
      evl <- py_iter events ;;
      gtp_events [] JNull evl
    else Ok ([], JNull)
  else Ok ([], JNull).

(** ** [save_tournament_data] and [save_head_to_head_data]: the returned
    file name

    The CSV writing (pandas) is not modelled. [datetime.now()] is given by
    its fields; [strftime('%Y%m%d_%H%M%S')] writes the year in decimal and
    the other fields on two digits. *)

(** [s.replace(old, new)] for one-character [old] and [new]. *)
Fixpoint replace_char (old new : ascii) (s : string) : string :=
  match s with
  | EmptyString => EmptyString
  | String c r => String (if Ascii.eqb c old then new else c) (replace_char old new r)
  end.

Record now_fields := {
  nf_year : Z; nf_month : Z; nf_day : Z; nf_hour : Z; nf_minute : Z; nf_second : Z }.

Definition pad2 (z : Z) : string := if z <? 10 then ("0" ++ z_str z)%string else z_str z.

Definition timestamp_str (t : now_fields) : string :=
  z_str (nf_year t) ++ pad2 (nf_month t) ++ pad2 (nf_day t) ++ "_" ++
  pad2 (nf_hour t) ++ pad2 (nf_minute t) ++ pad2 (nf_second t).

Definition save_tournament_data (target_slug : string) (now : now_fields)
    (combined_histories : list history_row) : string :=
  "tournament_data_" ++ replace_char "/" "_" target_slug ++ "_" ++ timestamp_str now ++ ".csv".

Definition save_head_to_head_data (target_slug : string) (now : now_fields)
    (head_to_head_data : list h2h) : option string :=
  match head_to_head_data with
  | [] => None
  | _ => Some ("head_to_head_matches_" ++ replace_char "/" "_" target_slug ++ "_" ++
               timestamp_str now ++ ".csv")
  end.

(** [c in s] for a character *)
Fixpoint has_char (c : ascii) (s : string) : bool :=
  match s with
  | EmptyString => false
  | String d r => Ascii.eqb d c || has_char c r
  end.


(** * Concrete inputs *)

(** Two lock executions: the first post raises after 10 ms, the second
    worker was already waiting for the lock. The API object was created at
    time 0. *)
Definition limiter0 : limiter := {| last_request_time := 0; lock_free := 0 |}.
Definition raising_then_waiting : list section :=
  [ {| arrive := 600000; oversleep := 0; post_dur := 10000; post_raises := true; hold_after := 0 |};
    {| arrive := 600000; oversleep := 0; post_dur := 200000; post_raises := false; hold_after := 0 |} ].

(** Three 429 answers (Retry-After: 1) followed by a success. *)
Definition ok_body : json := JObj [("data", JObj [("player", JNull)])].
Definition three_429_then_ok (k : nat) : response :=
  if Nat.ltb k 3 then Resp 429 (Some (Some 1)) (JObj []) else Resp 200 None ok_body.

Definition node (id : Z) (slug name : string) (date : Z) : set_node :=
  {| n_game := "SF6"; n_tournament := {| t_id := id; t_slug := slug; t_name := name; t_startAt := Some date |} |}.

Definition renamed_page (p : Z) : option (list set_node) :=
  if p =? 2 then Some [node 5 "tournament/evo" "EVO 2025" 500] else None.

Definition evo_info : tinfo := {| ti_slug := "tournament/evo"; ti_name := "Evo"; ti_date := 500 |}.
Definition empty_collector : collector := {| tournament_cache := []; net_log := [] |}.

Definition team_vs_other : set_data :=
  {| set_id := 99; set_slots := Some [mk_slot [(7, "A"); (8, "B")] 1; mk_slot [(9, "C")] 2] |}.
Definition both_first : set_data :=
  {| set_id := 99; set_slots := Some [mk_slot [(7, "A")] 1; mk_slot [(8, "B")] 1] |}.
Definition second_slot_wins : set_data :=
  {| set_id := 99; set_slots := Some [mk_slot [(7, "A")] 2; mk_slot [(8, "B")] 1] |}.

(** A [SetScore] slot whose [stats] is [null]. *)
Definition null_stats_slot : json :=
  JObj [("entrant", JObj [("id", JInt 1)]); ("standing", JObj [("stats", JNull)])].

(** The outcome record of set 99 of tournament "T" between [p1] and [p2]. *)
Definition mk_outcome (p1 p2 w l : Z * string) (sc : string) : h2h :=
  {| player1_id := fst p1; player1_tag := Some (snd p1);
     player2_id := fst p2; player2_tag := Some (snd p2);
     winner_id := fst w; winner_tag := Some (snd w);
     loser_id := fst l; loser_tag := Some (snd l);
     score := sc; h_set_id := 99; tournament_name := "T" |}.

Definition second_slot_outcome : h2h := mk_outcome (7, "A") (8, "B") (8, "B") (7, "A") "1-3".
Definition first_wins_outcome : h2h := mk_outcome (7, "A") (8, "B") (7, "A") (8, "B") "3-1".
(** The outcome of [both_first] when [list(players_in_set)] is [[8, 7]],
    the order CPython gives the set [{7, 8}]. *)
Definition both_first_outcome : h2h := mk_outcome (8, "B") (7, "A") (8, "B") (7, "A") "3-1".

(** The player ids carried by the participants of a slot's entrant. *)
Definition participant_ids (ps : list participant) : list Z :=
  flat_map (fun p => match p_player p with
                     | Some pd => match pl_id pd with Some i => [i] | None => [] end
                     | None => []
                     end) ps.

Definition entrant_ids (s : slot) : list Z :=
  match sl_entrant s with
  | Some e => match e_participants e with Some ps => participant_ids ps | None => [] end
  | None => []
  end.

(** What the scan of the slots keeps: distinct target ids, and details
    stored under their own id. *)
Definition scan_inv (targets : list Z) (st : scan_state) : Prop :=
  NoDup (fst st) /\ Forall (fun x => is_target targets x = true) (fst st) /\
  Forall (fun kv : Z * detail => d_id (snd kv) = fst kv) (snd st).

(** The [player_sets] request of a competitor worker. *)
Definition player_sets_request (pid : Z) : request :=
  {| rq_type := "player_sets"; rq_id := KInt pid; rq_query := "PlayerTournaments";
     rq_variables := [("playerId", JInt pid); ("perPage", JInt 60)]; rq_priority := 2 |}.

(** A page function that differs from [renamed_page] only on page 7. *)
Definition renamed_page_and_7 (p : Z) : option (list set_node) :=
  if p =? 7 then Some [node 6 "tournament/cevo" "CEO" 600] else renamed_page p.

(** A node of [nodes] that yields entry [(k, ti)]. *)
Definition node_yields (g : option string) (y n : Z) (nodes : list set_node) (k : Z) (ti : tinfo)
  : Prop :=
  exists nd, In nd nodes /\ wrong_game g (n_game nd) = false /\
    in_window y n (Some (ti_date ti)) = true /\
    t_id (n_tournament nd) = k /\ t_slug (n_tournament nd) = ti_slug ti /\
    t_name (n_tournament nd) = ti_name ti /\ t_startAt (n_tournament nd) = Some (ti_date ti).

(** The counting loop's set for tournament [t], starting from [o]: the
    competitors whose map lists [t], in the order they are added. *)
Definition competitors_listing (t : Z) (pts : list (Z * (string * list (Z * tinfo))))
    (o : option (list Z)) : option (list Z) :=
  fold_left
    (fun o player_data =>
       if existsb (Z.eqb t) (map fst (snd (snd player_data)))
       then Some (set_add (match o with Some s => s | None => [] end) (fst player_data))
       else o)
    pts o.

(** The entry [find_shared_tournaments] makes for one counted tournament. *)
Definition shared_entry (pts : list (Z * (string * list (Z * tinfo)))) (tourney_id : Z)
    (players_in_tourney : list Z) : option shared :=
  if Nat.leb 2 (List.length players_in_tourney) then
    match find (fun player_data => dict_mem Z.eqb (snd (snd player_data)) tourney_id) pts with
    | Some player_data =>
        match dict_get Z.eqb (snd (snd player_data)) tourney_id with
        | Some tourney_info =>
            Some {| sh_slug := ti_slug tourney_info; sh_name := ti_name tourney_info;
                    sh_date := ti_date tourney_info; sh_players := players_in_tourney;
                    sh_player_count := Z.of_nat (List.length players_in_tourney) |}
        | None => None
        end
    | None => None
    end
  else None.

(** Competitor [p] lists tournament [t]. *)
Definition lists_tournament (pts : list (Z * (string * list (Z * tinfo)))) (p t : Z) : Prop :=
  exists v, In (p, v) pts /\ In t (map fst (snd v)).

(** The details a batch records from the cache alone. *)
Definition cache_hits (cache : list (string * nat)) (batch : list (Z * string))
    (d : list (Z * nat)) : list (Z * nat) :=
  fold_left
    (fun d it =>
       match dict_get String.eqb cache (snd it) with
       | Some obj => dict_set Z.eqb d (fst it) obj
       | None => d
       end)
    batch d.

(** Two shared tournaments, with distinct ids. *)
Definition shared_pair : list (Z * shared) :=
  [(10, {| sh_slug := "tournament/a"; sh_name := "A"; sh_date := 1; sh_players := [1; 2];
           sh_player_count := 2 |});
   (11, {| sh_slug := "tournament/b"; sh_name := "B"; sh_date := 2; sh_players := [1; 2];
           sh_player_count := 2 |})].

(** An event of another game, and an SF6 event in which competitor 7
    placed third. *)
Definition tekken_event : json :=
  JObj [("name", JStr "Tekken 8 Singles"); ("videogame", JObj [("name", JStr "Tekken 8")])].
Definition sf6_event : json :=
  JObj [("name", JStr "SF6 Singles"); ("videogame", JObj [("name", JStr "SF6")]);
        ("numEntrants", JInt 64);
        ("standings", JObj [("nodes", JList [
           JObj [("placement", JInt 3);
                 ("entrant", JObj [("participants", JList [JObj [("player", JObj [("id", JInt 7)])]])])]])])].

(** A tournament whose only event is an SF6 event with one set. *)
Definition sf6_tourney (sd : set_data) : tourney :=
  {| td_name := "T";
     td_events := Some [{| ev_videogame := Some {| vg_name := Some "SF6" |};
                           ev_sets := Some {| sc_nodes := Some [sd] |} |}] |}.

(** The [TournamentPlayers] payload of a tournament with one SF6 event and
    competitors 7 and 8. *)
Definition seed_event : json :=
  JObj [("videogame", JObj [("name", JStr "SF6")]);
        ("entrants", JObj [("nodes", JList [
           JObj [("participants", JList [JObj [("player", JObj [("id", JInt 7); ("gamerTag", JStr "A")])]])];
           JObj [("participants", JList [JObj [("player", JObj [("id", JInt 8); ("gamerTag", JStr "B")])]])]])])].
Definition seed_tournament : json := JObj [("events", JList [seed_event])].
Definition seed_payload : json := JObj [("tournament", seed_tournament)].

(** The history row of competitor 7 for tournament 2, whose details are
    missing. *)
Definition absent_details_row : history_row :=
  {| hr_player_id := 7; hr_player_tag := "A"; hr_tournament_id := 2;
     hr_tournament_name := "Evo"; hr_tournament_slug := "tournament/evo";
     hr_tournament_date := "2025-07-03"; hr_placement := JInt 0;
     hr_event_name := JStr "Unknown"; hr_total_entrants := JInt 0 |}.

(** A competitor map entry: a hashable key, and the [player] object whose
    ['id'] equals it. *)
Definition seed_entry_ok (kv : json * json) : Prop :=
  py_hashable (fst kv) = true /\
  exists id, py_index (snd kv) "id" = Ok id /\ py_eq id (fst kv) = true.

(** * Facts about the Python dictionary model *)

Section DictFacts.
Context {K V : Type} (eqb : K -> K -> bool).
Hypothesis eqb_spec : forall a b, eqb a b = true <-> a = b.

Lemma eqb_refl_dict : forall a, eqb a a = true.
Proof. intro a. apply eqb_spec. reflexivity. Qed.

Lemma dict_get_set : forall (d : list (K * V)) k v k',
  dict_get eqb (dict_set eqb d k v) k' = if eqb k' k then Some v else dict_get eqb d k'.
Proof.
  induction d as [|[k1 v1] r IH]; intros k v k'; simpl.
  - destruct (eqb k' k); reflexivity.
  - destruct (eqb k k1) eqn:E.
    + apply eqb_spec in E; subst. simpl. destruct (eqb k' k1); reflexivity.
    + simpl. destruct (eqb k' k1) eqn:E2.
      * apply eqb_spec in E2; subst.
        destruct (eqb k1 k) eqn:E3; [|reflexivity].
        apply eqb_spec in E3; subst. rewrite eqb_refl_dict in E. discriminate.
      * apply IH.
Qed.

Lemma in_keys_set : forall (d : list (K * V)) k v x,
  In x (map fst (dict_set eqb d k v)) -> In x (map fst d) \/ x = k.
Proof.
  induction d as [|[k1 v1] r IH]; intros k v x H; simpl in *.
  - destruct H as [H|[]]. right. congruence.
  - destruct (eqb k k1); simpl in H.
    + left. exact H.
    + destruct H as [H|H]; [left; left; exact H|].
      destruct (IH k v x H) as [H'|H']; [left; right; exact H'|right; exact H'].
Qed.

Lemma dict_set_nodup : forall (d : list (K * V)) k v,
  NoDup (map fst d) -> NoDup (map fst (dict_set eqb d k v)).
Proof.
  induction d as [|[k1 v1] r IH]; intros k v H; simpl in *.
  - constructor; [intros []|constructor].
  - inversion H as [|? ? Hn Hr]; subst.
    destruct (eqb k k1) eqn:E; simpl.
    + constructor; assumption.
    + constructor; [|apply IH; assumption].
      intro Hin. apply in_keys_set in Hin. destruct Hin as [Hin|Hin].
      * contradiction.
      * subst. rewrite eqb_refl_dict in E. discriminate.
Qed.

Lemma dict_get_not_in : forall (d : list (K * V)) k, ~ In k (map fst d) -> dict_get eqb d k = None.
Proof.
  induction d as [|[k1 v1] r IH]; intros k H; simpl in *; [reflexivity|].
  destruct (eqb k k1) eqn:E.
  - apply eqb_spec in E. subst. exfalso. apply H. left. reflexivity.
  - apply IH. intro Hin. apply H. right. exact Hin.
Qed.

Lemma dict_get_update : forall (e d : list (K * V)) k,
  NoDup (map fst e) ->
  dict_get eqb (dict_update eqb d e) k =
  match dict_get eqb e k with Some v => Some v | None => dict_get eqb d k end.
Proof.
  unfold dict_update.
  induction e as [|[k1 v1] r IH]; intros d k H; simpl in *; [reflexivity|].
  inversion H as [|? ? Hn Hr]; subst.
  rewrite IH by assumption. rewrite dict_get_set.
  destruct (eqb k k1) eqn:E; [|reflexivity].
  apply eqb_spec in E. subst. rewrite dict_get_not_in by assumption. reflexivity.
Qed.

Lemma dict_set_not_nil : forall (d : list (K * V)) k v, dict_set eqb d k v <> [].
Proof. destruct d as [|[k1 v1] r]; intros; simpl; [|destruct (eqb k k1)]; discriminate. Qed.

Lemma in_dict_set : forall (d : list (K * V)) k v x,
  In x (dict_set eqb d k v) -> In x d \/ x = (k, v).
Proof.
  induction d as [|[k1 v1] r IH]; intros k v x H; simpl in *.
  - destruct H as [H|[]]. right. symmetry. exact H.
  - destruct (eqb k k1) eqn:E; simpl in H.
    + apply eqb_spec in E. subst.
      destruct H as [H|H]; [right; symmetry; exact H|left; right; exact H].
    + destruct H as [H|H]; [left; left; exact H|].
      destruct (IH k v x H) as [H'|H']; [left; right; exact H'|right; exact H'].
Qed.

Lemma dict_get_in : forall (d : list (K * V)) k v, dict_get eqb d k = Some v -> In (k, v) d.
Proof.
  induction d as [|[k1 v1] r IH]; intros k v H; simpl in *; [discriminate|].
  destruct (eqb k k1) eqn:E.
  - apply eqb_spec in E. inversion H. subst. left. reflexivity.
  - right. apply IH. exact H.
Qed.
End DictFacts.

Lemma Z_eqb_spec' : forall a b : Z, (a =? b) = true <-> a = b.
Proof. intros. apply Z.eqb_eq. Qed.

(** * The rate limiter *)

Lemma run_section_start_after_last : forall st s,
  well_timed s -> last_request_time st + min_interval <= fst (run_section st s).
Proof.
  intros st s [Ho [Hd Hh]]. unfold run_section; cbv zeta.
  pose proof (Z.le_max_l (arrive s) (lock_free st)).
  destruct (Z.max (arrive s) (lock_free st) - last_request_time st <? min_interval) eqn:E;
    [apply Z.ltb_lt in E|apply Z.ltb_ge in E];
    destruct (post_raises s); cbn [fst]; lia.
Qed.

Lemma run_section_records : forall st s,
  post_raises s = false ->
  last_request_time (snd (run_section st s)) = fst (run_section st s) + post_dur s.
Proof. intros st s R. unfold run_section. rewrite R. reflexivity. Qed.

(** A post whose [requests.post] returned is at least [min_interval] before
    the next post, whichever worker issues it. *)
Lemma recorded_post_gap : forall st s1 s2 rest t1 t2 ts,
  well_timed s1 -> well_timed s2 -> post_raises s1 = false ->
  post_starts st (s1 :: s2 :: rest) = t1 :: t2 :: ts ->
  min_interval <= t2 - t1.
Proof.
  intros st s1 s2 rest t1 t2 ts W1 W2 R H. cbn [post_starts] in H.
  pose proof (run_section_records st s1 R) as L.
  destruct (run_section st s1) as [a st1] eqn:E1.
  pose proof (run_section_start_after_last st1 s2 W2) as G.
  destruct (run_section st1 s2) as [b st2] eqn:E2.
  injection H as -> -> _. cbn [fst snd] in G, L.
  destruct W1 as [_ [Hd _]]. lia.
Qed.

(** ** C1 (failing input): the post after a raising post is not held back.
    The first post raises 10 ms after it starts; [last_request_time] keeps
    its old value, so the waiting worker posts at once, 10 ms after the
    previous post started, well under the 600 ms interval. *)
Theorem rate_limit_gap_after_raising_post :
  post_starts limiter0 raising_then_waiting = [600000; 610000] /\
  610000 - 600000 < min_interval.
Proof. split; [reflexivity|unfold min_interval; lia]. Qed.

(** * The retry loop *)

Lemma count_posts_app : forall l1 l2,
  count_posts (l1 ++ l2) = (count_posts l1 + count_posts l2)%nat.
Proof. intros. unfold count_posts. rewrite filter_app, length_app. reflexivity. Qed.

Lemma count_posts_backoff : forall r a, count_posts (backoff r a) = 0%nat.
Proof. intros. unfold backoff. destruct (Nat.ltb a (r - 1)); reflexivity. Qed.

Lemma attempts_all_429 : forall retries resp ra k a,
  (forall i, (a <= i < a + k)%nat -> exists body, resp i = Resp 429 (ra i) body) ->
  attempts retries resp a k =
    (JNull, flat_map (fun i => Post :: match ra i with
                                       | None => [Sleep 60]
                                       | Some (Some n) => if n <? 0 then backoff retries i else [Sleep n]
                                       | Some None => backoff retries i
                                       end) (seq a k)).
Proof.
  intros retries resp ra k. induction k as [|k IH]; intros a H; [reflexivity|].
  cbn [attempts]. rewrite IH by (intros i Hi; apply H; lia).
  destruct (H a) as [body Hb]; [lia|]. rewrite Hb.
  cbn [seq flat_map]. rewrite Z.eqb_refl.
  destruct (ra a) as [[n|]|]; [destruct (n <? 0)| |]; reflexivity.
Qed.

Lemma count_posts_429_trace : forall retries (ra : nat -> option (option Z)) k a,
  count_posts (flat_map (fun i => Post :: match ra i with
                                          | None => [Sleep 60]
                                          | Some (Some n) => if n <? 0 then backoff retries i else [Sleep n]
                                          | Some None => backoff retries i
                                          end) (seq a k)) = k.
Proof.
  intros retries ra k. induction k as [|k IH]; intros a; [reflexivity|].
  cbn [seq flat_map]. rewrite count_posts_app, IH.
  assert (P : forall l, count_posts (Post :: l) = S (count_posts l)) by reflexivity.
  rewrite P. destruct (ra a) as [[n|]|]; [destruct (n <? 0)| |];
    rewrite ?count_posts_backoff; reflexivity.
Qed.

(** ** C4 (amended): every 429 answer consumes one of the [retries]
    attempts.  An integer [Retry-After] of at least 0 is slept (60 s when
    the header is absent); a non-integer or negative one makes the attempt
    raise, and the loop backs off 5*(attempt+1) s as for any exception,
    except after the last attempt.  When the first [retries] answers are
    all 429, the request gives up with [None] after exactly [retries]
    posts, with these sleeps in between. *)
Theorem rate_limited_answers_consume_attempts : forall retries resp ra,
  (forall i, (i < retries)%nat -> exists body, resp i = Resp 429 (ra i) body) ->
  make_safe_request retries resp =
    (JNull, flat_map (fun i => Post :: match ra i with
                                       | None => [Sleep 60]
                                       | Some (Some n) => if n <? 0 then backoff retries i else [Sleep n]
                                       | Some None => backoff retries i
                                       end) (seq 0 retries)) /\
  count_posts (snd (make_safe_request retries resp)) = retries.
Proof.
  intros retries resp ra H. unfold make_safe_request.
  rewrite (attempts_all_429 retries resp ra) by (intros i Hi; apply H; lia).
  split; [reflexivity|]. apply count_posts_429_trace.
Qed.

Lemma rate_limited_answers_consume_attempts_witness :
  make_safe_request 3 three_429_then_ok = (JNull, [Post; Sleep 1; Post; Sleep 1; Post; Sleep 1]) /\
  count_posts (snd (make_safe_request 3 three_429_then_ok)) = 3%nat.
Proof.
  apply (rate_limited_answers_consume_attempts 3 three_429_then_ok (fun _ => Some (Some 1))).
  intros i Hi. exists (JObj []). unfold three_429_then_ok.
  replace (Nat.ltb i 3) with true by (symmetry; apply Nat.ltb_lt; exact Hi). reflexivity.
Defined.

(** ** C4 (counterexample): with three 429 answers and a success on the
    fourth post, a request with the default budget of 3 returns [None]:
    the 429 answers were charged to the attempt counter. *)
Lemma three_429_exhaust_default_budget :
  make_safe_request 3 three_429_then_ok = (JNull, [Post; Sleep 1; Post; Sleep 1; Post; Sleep 1]) /\
  three_429_then_ok 3 = Resp 200 None ok_body.
Proof. split; reflexivity. Qed.

(** * Competitor tournament pages *)

Lemma add_page_nodup : forall g y n nodes acc,
  NoDup (map fst acc) -> NoDup (map fst (add_page g y n acc nodes)).
Proof.
  intros g y n nodes. unfold add_page.
  induction nodes as [|nd r IH]; intros acc H; cbn [fold_left]; [exact H|].
  apply IH.
  destruct (wrong_game g (n_game nd)); [exact H|].
  destruct (t_startAt (n_tournament nd)) as [d|]; [|exact H].
  destruct (in_window y n (Some d)); [|exact H].
  apply dict_set_nodup; [exact Z_eqb_spec'|exact H].
Qed.

Lemma additional_pages_nodup : forall g y n page total,
  NoDup (map fst (get_additional_player_sets_pages g y n page total)).
Proof.
  intros. unfold get_additional_player_sets_pages.
  assert (G : forall ps acc, NoDup (map fst acc) ->
    NoDup (map fst (fold_left
      (fun tournaments p => match page p with
                            | Some nodes => add_page g y n tournaments nodes
                            | None => tournaments
                            end) ps acc))).
  { induction ps as [|p r IH]; intros acc H; cbn [fold_left]; [exact H|].
    apply IH. destruct (page p); [apply add_page_nodup|]; exact H. }
  apply G. constructor.
Qed.

(** ** C3 (amended): an entry for a tournament id found on an additional
    page replaces the page-1 entry for that id ([tournaments.update]); the
    later occurrence wins. *)
Theorem later_page_entry_wins : forall g y n nodes total page k v,
  1 < total ->
  dict_get Z.eqb (get_additional_player_sets_pages g y n page total) k = Some v ->
  dict_get Z.eqb (get_player_tournaments_simple g y n (Some (nodes, total)) page) k = Some v.
Proof.
  intros g y n nodes total page k v Ht Hk. simpl.
  replace (1 <? total) with true by (symmetry; apply Z.ltb_lt; exact Ht).
  rewrite (dict_get_update Z.eqb Z_eqb_spec') by apply additional_pages_nodup.
  rewrite Hk. reflexivity.
Qed.

Lemma later_page_entry_wins_witness :
  dict_get Z.eqb (get_player_tournaments_simple (Some "SF6") 0 1000
                   (Some ([node 5 "tournament/evo" "Evo" 500], 2)) renamed_page) 5 =
  Some {| ti_slug := "tournament/evo"; ti_name := "EVO 2025"; ti_date := 500 |}.
Proof. apply later_page_entry_wins; [lia|reflexivity]. Defined.

(** ** C3 (counterexample): page 1 lists tournament 5 as "Evo", page 2
    as "EVO 2025"; the competitor's map keeps the page-2 entry, not the
    first occurrence. *)
Lemma first_occurrence_overwritten :
  get_player_tournaments_simple (Some "SF6") 0 1000
    (Some ([node 5 "tournament/evo" "Evo" 500], 2)) renamed_page =
  [(5, {| ti_slug := "tournament/evo"; ti_name := "EVO 2025"; ti_date := 500 |})].
Proof. reflexivity. Qed.

(** * The tournament cache *)

(** ** C5 (failing input): two tournament ids 1 and 2 share the slug
    ["tournament/evo"] in one batch, the cache being empty. Both are
    queued, so the slug is requested twice; in the storing loop the first
    id fills the cache and the second id is then skipped as "cached", so it
    never enters the returned details map. *)
Theorem shared_slug_fetched_twice_and_dropped :
  batch_process_tournament_data (fun _ => true) empty_collector [1; 2]
    [(100, [(1, evo_info); (2, evo_info)])] =
  ({| tournament_cache := [("tournament/evo", 0%nat)];
      net_log := ["tournament/evo"; "tournament/evo"] |},
   [(1, 0%nat)]).
Proof. reflexivity. Qed.

(** * The run's control flow *)

Lemma player_fold_nil : forall (fetch : Z -> result (list (Z * tinfo))) (players : list (Z * string))
  (acc : list (Z * (string * list (Z * tinfo)))),
  fold_left
    (fun player_tournaments (it : Z * string) =>
       match fetch (fst it) with
       | Ok [] => player_tournaments
       | Ok ts => dict_set Z.eqb player_tournaments (fst it) (snd it, ts)
       | Raise _ => player_tournaments
       end) players acc = [] <->
  acc = [] /\
  Forall (fun it : Z * string =>
            match fetch (fst it) with Ok ts => ts = [] | Raise _ => True end) players.
Proof.
  intros fetch players. induction players as [|p r IH]; intros acc; simpl.
  - split; [intros H; split; [exact H|constructor]|intros [H _]; exact H].
  - rewrite IH. split.
    + intros [H1 H2].
      destruct (fetch (fst p)) as [[|t ts]|e] eqn:E.
      * split; [exact H1|]. constructor; [rewrite E; reflexivity|exact H2].
      * exfalso. exact (dict_set_not_nil Z.eqb _ _ _ H1).
      * split; [exact H1|]. constructor; [rewrite E; exact I|exact H2].
    + intros [H1 H2]. inversion H2 as [|? ? Hp Hr]; subst.
      split; [|exact Hr].
      destruct (fetch (fst p)) as [[|t ts]|e]; [reflexivity|discriminate|reflexivity].
Qed.

(** ** C8 (amended): provided the later steps complete, the run returns no
    result exactly when the seed tournament gives no competitors, or when
    no competitor yields a non-empty tournament map (each per-competitor
    task raised or found nothing); such a competitor is dropped. *)
Theorem run_stops_early_iff : forall summary finish seed fetch,
  (forall pt, exists s, finish pt = Ok s) ->
  (collect_tournament_data summary finish seed fetch = Ok None <->
   seed = [] \/
   Forall (fun it : Z * string =>
             match fetch (fst it) with Ok ts => ts = [] | Raise _ => True end) seed).
Proof.
  intros summary finish seed fetch Hfin. unfold collect_tournament_data.
  destruct seed as [|p r] eqn:Es.
  - split; [intros _; left; reflexivity|intros _; reflexivity].
  - unfold get_all_player_tournaments_parallel.
    pose proof (player_fold_nil fetch (p :: r) []) as Hn.
    destruct (fold_left _ (p :: r) []) as [|q l] eqn:Ef.
    + split; [intros _; right; apply Hn; reflexivity|intros _; reflexivity].
    + destruct (Hfin (q :: l)) as [s Hs]. rewrite Hs. simpl.
      split; [discriminate|].
      intros [H|H]; [discriminate|].
      exfalso. assert (Hc : q :: l = []) by (apply Hn; split; [reflexivity|exact H]).
      discriminate.
Qed.

Lemma run_stops_early_iff_witness :
  collect_tournament_data unit (fun _ => Ok tt) [(1, "A")] (fun _ => Ok []) = Ok None <->
  [(1, "A")] = [] \/
  Forall (fun it : Z * string =>
            match (fun _ : Z => @Ok (list (Z * tinfo)) []) (fst it) with
            | Ok ts => ts = [] | Raise _ => True end) [(1, "A")].
Proof. apply run_stops_early_iff. intros pt. exists tt. reflexivity. Defined.

(** ** C8 (counterexample): the seed tournament has a competitor, but its
    tournament fetch finds nothing; the run ends with no output. *)
Lemma run_stops_without_player_tournaments :
  collect_tournament_data unit (fun _ => Ok tt) [(1, "A")] (fun _ => Ok []) = Ok None.
Proof. reflexivity. Qed.

(** * The score string *)

(** ** C10 (failing input): a slot whose score [value] is [null] is
    rendered as ["None"], not defaulted to 0; a slot whose [stats] is
    [null] makes [get_set_score] raise. *)
Theorem null_score_not_defaulted :
  get_set_score (score_resp2 JNull (JInt 2)) = Ok "None-2" /\
  get_set_score (JObj [("set", JObj [("slots", JList [null_stats_slot; score_slot 2 (JInt 2)])])])
  = Raise AttributeError.
Proof. split; reflexivity. Qed.

(** * Head-to-head extraction *)

Lemma nodup_snoc : forall (s : list Z) x, NoDup s -> ~ In x s -> NoDup (s ++ [x]).
Proof.
  induction s as [|a r IH]; intros x H Hx; simpl.
  - constructor; [intros []|constructor].
  - inversion H as [|? ? Ha Hr]; subst. constructor.
    + intro Hin. apply in_app_iff in Hin. destruct Hin as [Hin|[Hin|[]]].
      * contradiction.
      * apply Hx. left. symmetry. exact Hin.
    + apply IH; [exact Hr|]. intro Hin. apply Hx. right. exact Hin.
Qed.

Lemma set_add_inv : forall targets s x,
  NoDup s -> Forall (fun y => is_target targets y = true) s -> is_target targets x = true ->
  NoDup (set_add s x) /\ Forall (fun y => is_target targets y = true) (set_add s x).
Proof.
  intros targets s x H1 H2 H3. unfold set_add.
  destruct (existsb (Z.eqb x) s) eqn:E; [split; assumption|].
  split.
  - apply nodup_snoc; [exact H1|]. intro Hin.
    assert (existsb (Z.eqb x) s = true) by (apply existsb_exists; exists x; split; [exact Hin|apply Z.eqb_refl]).
    congruence.
  - apply Forall_app. split; [exact H2|]. constructor; [exact H3|constructor].
Qed.

Lemma scan_participants_inv : forall targets plc ps st st',
  scan_participants targets plc ps st = Ok st' -> scan_inv targets st -> scan_inv targets st'.
Proof.
  intros targets plc ps. induction ps as [|p r IH]; intros st st' H Hi; simpl in H.
  - inversion H. subst. exact Hi.
  - destruct (p_player p) as [pd|]; [|discriminate].
    destruct (pl_id pd) as [id|]; [|exact (IH _ _ H Hi)].
    destruct (is_target targets id) eqn:T; [|exact (IH _ _ H Hi)].
    apply (IH _ _ H). destruct Hi as [H1 [H2 H3]].
    destruct (set_add_inv targets (fst st) id H1 H2 T) as [G1 G2].
    split; [exact G1|split; [exact G2|]]. simpl.
    apply Forall_forall. intros x Hx.
    apply (in_dict_set Z.eqb Z_eqb_spec') in Hx. destruct Hx as [Hx|Hx].
    + rewrite Forall_forall in H3. apply H3. exact Hx.
    + subst. reflexivity.
Qed.

Lemma scan_slots_inv : forall targets sl st st',
  scan_slots targets sl st = Ok st' -> scan_inv targets st -> scan_inv targets st'.
Proof.
  intros targets sl. induction sl as [|s r IH]; intros st st' H Hi; simpl in H.
  - inversion H. subst. exact Hi.
  - destruct (sl_entrant s) as [e|]; [|exact (IH _ _ H Hi)].
    destruct (e_participants e) as [ps|]; [|discriminate].
    destruct (scan_participants targets (slot_placement s) ps st) as [st1|x] eqn:E; [|discriminate].
    simpl in H. apply (IH _ _ H). exact (scan_participants_inv _ _ _ _ _ E Hi).
Qed.

Lemma scan_inv_nil : forall targets, scan_inv targets ([], []).
Proof. intros. split; [constructor|split; constructor]. Qed.

Lemma detail_id : forall targets st k d,
  scan_inv targets st -> dict_get Z.eqb (snd st) k = Some d -> d_id d = k.
Proof.
  intros targets st k d [_ [_ H]] G. apply (dict_get_in Z.eqb Z_eqb_spec') in G.
  rewrite Forall_forall in H. exact (H _ G).
Qed.

Lemma dict_index_get : forall {V : Type} (d : list (Z * V)) k v,
  dict_index d k = Ok v -> dict_get Z.eqb d k = Some v.
Proof. intros V d k v H. unfold dict_index in H. destruct (dict_get Z.eqb d k); congruence. Qed.

Lemma placement_is_1_true : forall p, placement_is_1 p = true -> p = Some 1.
Proof. intros [z|] H; simpl in H; [apply Z.eqb_eq in H; subst; reflexivity|discriminate]. Qed.

(** Everything an emitted outcome says about the match it comes from. *)
Lemma analyze_core : forall targets tname swap resp sd o,
  analyze_set_for_h2h targets tname swap resp sd = Ok (Some o) ->
  exists slots a b det win,
    set_slots sd = Some slots /\ List.length slots = 2%nat /\
    scan_slots targets slots ([], []) = Ok ([a; b], det) /\
    a <> b /\ is_target targets a = true /\ is_target targets b = true /\
    ((winner_id o = a /\ loser_id o = b) \/ (winner_id o = b /\ loser_id o = a)) /\
    dict_get Z.eqb det (winner_id o) = Some win /\ d_placement win = Some 1 /\
    (forall d0, dict_get Z.eqb det (nth 0 (list_of_set swap [a; b]) 0) = Some d0 ->
                d_placement d0 = Some 1 -> winner_id o = nth 0 (list_of_set swap [a; b]) 0) /\
    get_set_score resp = Ok (score o).
Proof.
  intros targets tname swap resp sd o H. unfold analyze_set_for_h2h in H.
  destruct (set_slots sd) as [slots|] eqn:Esl; [|discriminate].
  destruct (negb (Nat.eqb (List.length slots) 2)) eqn:Elen; [discriminate|].
  apply negb_false_iff, Nat.eqb_eq in Elen.
  destruct (scan_slots targets slots ([], [])) as [[ids det]|e] eqn:Esc; [|discriminate].
  cbn [bind] in H.
  pose proof (scan_slots_inv _ _ _ _ Esc (scan_inv_nil targets)) as Hinv.
  destruct (Nat.eqb (List.length ids) 2) eqn:Eids; [|discriminate].
  apply Nat.eqb_eq in Eids.
  destruct ids as [|a [|b [|c r]]]; try discriminate Eids.
  assert (Hab : a <> b).
  { destruct Hinv as [Hnd _]. simpl in Hnd. inversion Hnd as [|? ? Hn _]. subst.
    intro E. subst. apply Hn. left. reflexivity. }
  assert (Ha : is_target targets a = true /\ is_target targets b = true).
  { destruct Hinv as [_ [Ht _]]. simpl in Ht. inversion Ht as [|? ? Ta Tb]. subst.
    inversion Tb. subst. split; assumption. }
  remember (nth 0 (list_of_set swap [a; b]) 0) as id0 eqn:Hid0.
  remember (nth 1 (list_of_set swap [a; b]) 0) as id1 eqn:Hid1.
  assert (Hpair : (id0 = a /\ id1 = b) \/ (id0 = b /\ id1 = a))
    by (subst; destruct swap; simpl; auto).
  assert (H01 : id0 <> id1) by (destruct Hpair as [[-> ->]|[-> ->]]; congruence).
  destruct (dict_index det id0) as [p1|e] eqn:E1; [|discriminate]. cbn [bind] in H.
  destruct (dict_index det id1) as [p2|e] eqn:E2; [|discriminate]. cbn [bind] in H.
  assert (I1 : d_id p1 = id0) by exact (detail_id _ _ _ _ Hinv (dict_index_get _ _ _ E1)).
  assert (I2 : d_id p2 = id1) by exact (detail_id _ _ _ _ Hinv (dict_index_get _ _ _ E2)).
  rewrite I1, I2 in H.
  destruct (placement_is_1 (d_placement p1)) eqn:P1.
  - cbn [truthy_id] in H. destruct (negb (id0 =? 0)); [|discriminate].
    rewrite E1 in H. cbn [bind] in H. rewrite Z.eqb_refl in H. cbn [negb] in H.
    rewrite E2 in H. cbn [bind] in H.
    destruct (get_set_score resp) as [sc|e] eqn:Es; [|discriminate]. cbn [bind] in H.
    injection H as <-. cbn [winner_id loser_id score].
    exists slots, a, b, det, p1. rewrite I1, I2.
    split; [first [exact Esl|reflexivity]|]. split; [exact Elen|]. split; [exact Esc|]. split; [exact Hab|].
    split; [exact (proj1 Ha)|]. split; [exact (proj2 Ha)|].
    split; [destruct Hpair as [[-> ->]|[-> ->]]; auto|].
    split; [exact (dict_index_get _ _ _ E1)|].
    split; [exact (placement_is_1_true _ P1)|].
    split; [intros; exact Hid0|first [exact Es|reflexivity]].
  - destruct (placement_is_1 (d_placement p2)) eqn:P2; [|discriminate].
    cbn [truthy_id] in H. destruct (negb (id1 =? 0)); [|discriminate].
    rewrite E2 in H. cbn [bind] in H.
    replace (id0 =? id1) with false in H by (symmetry; apply Z.eqb_neq; exact H01).
    cbn [negb] in H. rewrite E1 in H. cbn [bind] in H.
    destruct (get_set_score resp) as [sc|e] eqn:Es; [|discriminate]. cbn [bind] in H.
    injection H as <-. cbn [winner_id loser_id score].
    exists slots, a, b, det, p2. rewrite I1, I2.
    split; [first [exact Esl|reflexivity]|]. split; [exact Elen|]. split; [exact Esc|]. split; [exact Hab|].
    split; [exact (proj1 Ha)|]. split; [exact (proj2 Ha)|].
    split; [destruct Hpair as [[-> ->]|[-> ->]]; auto|].
    split; [exact (dict_index_get _ _ _ E2)|].
    split; [exact (placement_is_1_true _ P2)|].
    split; [|first [exact Es|reflexivity]].
    intros d0 G Pd. rewrite <- Hid0 in G. rewrite (dict_index_get _ _ _ E1) in G. inversion G. subst d0.
      rewrite Pd in P1. discriminate.
Qed.

Lemma in_set_add : forall s y x, In x (set_add s y) -> In x s \/ x = y.
Proof.
  intros s y x H. unfold set_add in H. destruct (existsb (Z.eqb y) s); [left; exact H|].
  apply in_app_iff in H. destruct H as [H|[H|[]]]; [left; exact H|right; symmetry; exact H].
Qed.



(** ** C2 (amended): the score string is the first slot's score, a dash,
    and the second slot's score, as the [SetScore] payload lists them,
    whichever slot holds the winner. *)
Theorem score_in_slot_order : forall targets tname swap sd o e1 e2 v1 v2,
  analyze_set_for_h2h targets tname swap
    (JObj [("set", JObj [("slots", JList [score_slot e1 v1; score_slot e2 v2])])]) sd
  = Ok (Some o) ->
  score o = py_str v1 ++ "-" ++ py_str v2.
Proof.
  intros targets tname swap sd o e1 e2 v1 v2 H.
  destruct (analyze_core _ _ _ _ _ _ H) as (slots & a & b & det & win & _ & _ & _ & _ & _ & _ & _ & _ & _ & _ & Hs).
  assert (G : get_set_score (JObj [("set", JObj [("slots", JList [score_slot e1 v1; score_slot e2 v2])])])
              = Ok (py_str v1 ++ "-" ++ py_str v2)) by reflexivity.
  congruence.
Qed.

Lemma score_in_slot_order_witness :
  score second_slot_outcome = py_str (JInt 1) ++ "-" ++ py_str (JInt 3).
Proof.
  apply (score_in_slot_order [7; 8] "T" false second_slot_wins second_slot_outcome 1 2 (JInt 1) (JInt 3)).
  reflexivity.
Defined.

(** ** C2 (counterexample): the second slot wins 3 to 1, and the score
    string reads "1-3", the loser's score first. *)
Lemma winner_in_second_slot_score :
  analyze_set_for_h2h [7; 8] "T" false (score_resp2 (JInt 1) (JInt 3)) second_slot_wins
  = Ok (Some second_slot_outcome) /\
  winner_id second_slot_outcome = 8 /\ score second_slot_outcome = "1-3" /\
  score second_slot_outcome <> "3-1".
Proof. split; [reflexivity|]. split; [reflexivity|]. split; [reflexivity|discriminate]. Qed.

(** ** C6 (amended): an outcome is emitted only if the scan of the two
    slots collects exactly two distinct target ids, both of them targets,
    and the winner and loser are these two; the slot in which each id
    appears is not checked. *)
Theorem outcome_needs_two_target_ids : forall targets tname swap resp sd o,
  analyze_set_for_h2h targets tname swap resp sd = Ok (Some o) ->
  exists slots a b det,
    set_slots sd = Some slots /\ List.length slots = 2%nat /\
    scan_slots targets slots ([], []) = Ok ([a; b], det) /\ a <> b /\
    is_target targets a = true /\ is_target targets b = true /\
    ((winner_id o = a /\ loser_id o = b) \/ (winner_id o = b /\ loser_id o = a)).
Proof.
  intros targets tname swap resp sd o H.
  destruct (analyze_core _ _ _ _ _ _ H)
    as (slots & a & b & det & win & H1 & H2 & H3 & H4 & H5 & H6 & H7 & _).
  exists slots, a, b, det. repeat split; assumption.
Qed.

Lemma outcome_needs_two_target_ids_witness :
  exists slots a b det,
    set_slots team_vs_other = Some slots /\ List.length slots = 2%nat /\
    scan_slots [7; 8] slots ([], []) = Ok ([a; b], det) /\ a <> b /\
    is_target [7; 8] a = true /\ is_target [7; 8] b = true /\
    ((winner_id first_wins_outcome = a /\ loser_id first_wins_outcome = b) \/
     (winner_id first_wins_outcome = b /\ loser_id first_wins_outcome = a)).
Proof.
  apply (outcome_needs_two_target_ids [7; 8] "T" false (score_resp2 (JInt 3) (JInt 1))
           team_vs_other first_wins_outcome).
  reflexivity.
Defined.

(** ** C6 (counterexample): both target competitors are the two
    participants of the first slot's entrant (a team); an outcome is
    emitted with one teammate as winner and the other as loser. *)
Lemma same_slot_pair_emitted :
  analyze_set_for_h2h [7; 8] "T" false (score_resp2 (JInt 3) (JInt 1)) team_vs_other
  = Ok (Some first_wins_outcome) /\
  In 7 (entrant_ids (mk_slot [(7, "A"); (8, "B")] 1)) /\
  In 8 (entrant_ids (mk_slot [(7, "A"); (8, "B")] 1)).
Proof. split; [reflexivity|]. split; simpl; auto. Qed.

(** ** C7 (amended): the winner of an emitted outcome is a competitor
    whose recorded placement is 1, so a match where neither has placement
    1 gives no outcome.  A match where both have placement 1 is kept: when
    the two target competitors are scanned, both with placement 1, the
    first id of [list(players_in_set)] is non-zero and the score request
    succeeds, an outcome is emitted and that first id is its winner. *)
Theorem winner_has_placement_1 : forall targets tname swap resp sd,
  (forall o,
     analyze_set_for_h2h targets tname swap resp sd = Ok (Some o) ->
     exists slots a b det win,
       set_slots sd = Some slots /\
       scan_slots targets slots ([], []) = Ok ([a; b], det) /\
       dict_get Z.eqb det (winner_id o) = Some win /\ d_placement win = Some 1 /\
       (forall d0, dict_get Z.eqb det (nth 0 (list_of_set swap [a; b]) 0) = Some d0 ->
                   d_placement d0 = Some 1 -> winner_id o = nth 0 (list_of_set swap [a; b]) 0)) /\
  (forall slots a b det da db sc,
     set_slots sd = Some slots -> List.length slots = 2%nat ->
     scan_slots targets slots ([], []) = Ok ([a; b], det) ->
     dict_get Z.eqb det a = Some da -> dict_get Z.eqb det b = Some db ->
     d_placement da = Some 1 -> d_placement db = Some 1 ->
     nth 0 (list_of_set swap [a; b]) 0 <> 0 ->
     get_set_score resp = Ok sc ->
     exists o, analyze_set_for_h2h targets tname swap resp sd = Ok (Some o) /\
               winner_id o = nth 0 (list_of_set swap [a; b]) 0).
Proof.
  intros targets tname swap resp sd. split.
  - intros o H.
    destruct (analyze_core _ _ _ _ _ _ H)
      as (slots & a & b & det & win & H1 & _ & H3 & _ & _ & _ & _ & H8 & H9 & H10 & _).
    exists slots, a, b, det, win. repeat split; assumption.
  - intros slots a b det da db sc Hs Hl Hsc Ha Hb Pa Pb Hnz Hsc'.
    pose proof (scan_slots_inv _ _ _ _ Hsc (scan_inv_nil targets)) as Hinv.
    pose proof (detail_id _ _ _ _ Hinv Ha) as Ia.
    pose proof (detail_id _ _ _ _ Hinv Hb) as Ib.
    unfold analyze_set_for_h2h. rewrite Hs, Hl. cbn [negb Nat.eqb]. rewrite Hsc. cbn [bind].
    cbn [List.length Nat.eqb].
    destruct swap; cbn [list_of_set rev app nth] in *; unfold dict_index.
    + rewrite Hb, Ha. cbn [bind]. rewrite Pb, Ib. cbv zeta. cbn [placement_is_1 truthy_id].
      rewrite Z.eqb_refl. unfold truthy_id. replace (b =? 0) with false by (symmetry; apply Z.eqb_neq; exact Hnz).
      cbn [negb]. rewrite Hb. cbn [bind]. rewrite Z.eqb_refl. cbn [negb]. rewrite Ha.
      cbn [bind]. rewrite Hsc'. cbn [bind]. eexists. split; [reflexivity|]. exact Ib.
    + rewrite Ha, Hb. cbn [bind]. rewrite Pa, Ia. cbv zeta. cbn [placement_is_1 truthy_id].
      rewrite Z.eqb_refl. unfold truthy_id. replace (a =? 0) with false by (symmetry; apply Z.eqb_neq; exact Hnz).
      cbn [negb]. rewrite Ha. cbn [bind]. rewrite Z.eqb_refl. cbn [negb]. rewrite Hb.
      cbn [bind]. rewrite Hsc'. cbn [bind]. eexists. split; [reflexivity|]. exact Ia.
Qed.

Lemma winner_has_placement_1_witness :
  exists o, analyze_set_for_h2h [7; 8] "T" true (score_resp2 (JInt 3) (JInt 1)) both_first
            = Ok (Some o) /\ winner_id o = 8.
Proof.
  apply (proj2 (winner_has_placement_1 [7; 8] "T" true (score_resp2 (JInt 3) (JInt 1)) both_first)
           [mk_slot [(7, "A")] 1; mk_slot [(8, "B")] 1] 7 8
           [(7, {| d_id := 7; d_tag := Some "A"; d_placement := Some 1 |});
            (8, {| d_id := 8; d_tag := Some "B"; d_placement := Some 1 |})]
           {| d_id := 7; d_tag := Some "A"; d_placement := Some 1 |}
           {| d_id := 8; d_tag := Some "B"; d_placement := Some 1 |} "3-1");
    try reflexivity. discriminate.
Defined.

(** ** C7 (counterexample): both slots carry placement 1; the match is
    not excluded.  With the order CPython gives [list({7, 8})], namely
    [[8, 7]], competitor 8 is reported as the winner. *)
Lemma both_placement_1_emitted :
  analyze_set_for_h2h [7; 8] "T" true (score_resp2 (JInt 3) (JInt 1)) both_first
  = Ok (Some both_first_outcome) /\
  slot_placement (mk_slot [(7, "A")] 1) = Some 1 /\ slot_placement (mk_slot [(8, "B")] 1) = Some 1.
Proof. split; [reflexivity|]. split; reflexivity. Qed.




(** * Further properties of the code *)

(** ** The retry loop *)

Lemma count_posts_nil : count_posts [] = 0%nat.
Proof. reflexivity. Qed.

Lemma count_posts_cons_post : forall l, count_posts (Post :: l) = S (count_posts l).
Proof. reflexivity. Qed.

Lemma count_posts_cons_sleep : forall n l, count_posts (Sleep n :: l) = count_posts l.
Proof. reflexivity. Qed.

Lemma attempts_posts_le : forall retries resp k a,
  (count_posts (snd (attempts retries resp a k)) <= k)%nat.
Proof.
  intros retries resp k. induction k as [|k IH]; intros a;
    [cbn [attempts snd]; rewrite count_posts_nil; lia|].
  cbn [attempts]. specialize (IH (S a)).
  destruct (attempts retries resp (S a) k) as [r ev]. cbn [snd] in IH.
  destruct (resp a) as [|status ra body];
    [|destruct (status =? 429);
      [destruct ra as [[n|]|]; [destruct (n <? 0)| |]
      |destruct (500 <=? status);
       [|destruct (400 <=? status);
         [|destruct (has_errors body) as [[|]|e]; [|destruct (py_index body "data")|]]]]];
    cbn [snd];
    rewrite ?count_posts_cons_post, ?count_posts_cons_sleep, ?count_posts_app,
            ?count_posts_backoff, ?count_posts_nil; lia.
Qed.

(** ** X1: a request never posts more than [retries] times, whatever the
    answers. *)
Theorem request_posts_at_most_retries : forall retries resp,
  (count_posts (snd (make_safe_request retries resp)) <= retries)%nat.
Proof. intros. apply attempts_posts_le. Qed.

Lemma attempts_first_success : forall retries resp k status ra kv d m a,
  (a <= k < a + m)%nat ->
  (forall i, (a <= i < k)%nat ->
     resp i = PostRaises \/ exists s ra' body, resp i = Resp s ra' body /\ 400 <= s) ->
  resp k = Resp status ra (JObj kv) -> status < 400 ->
  dict_mem String.eqb kv "errors" = false -> dict_get String.eqb kv "data" = Some d ->
  fst (attempts retries resp a m) = d /\
  count_posts (snd (attempts retries resp a m)) = S (k - a).
Proof.
  intros retries resp k status ra kv d m. induction m as [|m IH];
    intros a Hk Hpre Hr Hs He Hd; [lia|].
  cbn [attempts]. pose proof (IH (S a)) as IHa.
  destruct (attempts retries resp (S a) m) as [r ev]; cbn [fst snd] in IHa.
  destruct (Nat.eq_dec a k) as [->|Hne].
  - rewrite Hr.
    replace (status =? 429) with false by (symmetry; apply Z.eqb_neq; lia).
    replace (500 <=? status) with false by (symmetry; apply Z.leb_gt; lia).
    replace (400 <=? status) with false by (symmetry; apply Z.leb_gt; lia).
    cbn [has_errors py_index]. rewrite He, Hd. cbn [fst snd].
    split; [reflexivity|]. rewrite count_posts_cons_post, count_posts_nil. lia.
  - destruct IHa as [G1 G2]; [lia|intros i Hi; apply Hpre; lia|exact Hr|exact Hs|exact He|exact Hd|].
    destruct (Hpre a) as [Ha | [s [ra' [b [Ha Hs4]]]]]; [lia| |]; rewrite Ha.
    + cbn [fst snd]. rewrite count_posts_cons_post, count_posts_app, count_posts_backoff.
      split; [exact G1|lia].
    + destruct (s =? 429);
        [destruct ra' as [[n|]|]; [destruct (n <? 0)| |]
        |destruct (500 <=? s);
         [|replace (400 <=? s) with true by (symmetry; apply Z.leb_le; lia)]];
        cbn [fst snd];
        rewrite ?count_posts_cons_post, ?count_posts_cons_sleep, ?count_posts_app,
                ?count_posts_backoff;
        (split; [exact G1|lia]).
Qed.

(** ** X2: the first answer that is not retried decides the request: when
    answers [0 .. k-1] all raise or have a status of 400 or more (429,
    5xx and other errors are all retried) and answer [k < retries] has a
    status below 400 and a dict body with a ['data'] key and no
    ['errors'] key, the request returns that ['data'] value after exactly
    [k + 1] posts. *)
Theorem first_success_answer_wins : forall retries resp k status ra kv d,
  (k < retries)%nat ->
  (forall i, (i < k)%nat ->
     resp i = PostRaises \/ exists s ra' body, resp i = Resp s ra' body /\ 400 <= s) ->
  resp k = Resp status ra (JObj kv) -> status < 400 ->
  dict_mem String.eqb kv "errors" = false -> dict_get String.eqb kv "data" = Some d ->
  fst (make_safe_request retries resp) = d /\
  count_posts (snd (make_safe_request retries resp)) = S k.
Proof.
  intros retries resp k status ra kv d Hk Hpre Hr Hs He Hd. unfold make_safe_request.
  replace (S k) with (S (k - 0)) by lia.
  apply (attempts_first_success retries resp k status ra kv d); try assumption; [lia|].
  intros i Hi. apply Hpre. lia.
Qed.

Lemma first_success_answer_wins_witness :
  fst (make_safe_request 4 three_429_then_ok) = JObj [("player", JNull)] /\
  count_posts (snd (make_safe_request 4 three_429_then_ok)) = 4%nat.
Proof.
  apply (first_success_answer_wins 4 three_429_then_ok 3 200 None [("data", JObj [("player", JNull)])]);
    [lia| |reflexivity|lia|reflexivity|reflexivity].
  intros i Hi. right. exists 429, (Some (Some 1)), (JObj []). split; [|lia].
  unfold three_429_then_ok.
  replace (Nat.ltb i 3) with true by (symmetry; apply Nat.ltb_lt; exact Hi). reflexivity.
Defined.

Lemma attempts_raise_step : forall retries resp a k,
  resp a = PostRaises ->
  attempts retries resp a (S k) =
    (fst (attempts retries resp (S a) k),
     Post :: backoff retries a ++ snd (attempts retries resp (S a) k)).
Proof.
  intros retries resp a k H. cbn [attempts]. rewrite H.
  destruct (attempts retries resp (S a) k); reflexivity.
Qed.

Lemma attempts_all_raise : forall retries resp k a,
  (a + S k)%nat = retries ->
  (forall i, (a <= i < a + S k)%nat -> resp i = PostRaises) ->
  fst (attempts retries resp a (S k)) = JNull /\
  count_posts (snd (attempts retries resp a (S k))) = S k /\
  2 * total_sleep (snd (attempts retries resp a (S k))) =
    5 * ((Z.of_nat retries - 1) * Z.of_nat retries - Z.of_nat a * (Z.of_nat a + 1)).
Proof.
  intros retries resp k. induction k as [|k IH]; intros a Ha H.
  - rewrite (attempts_raise_step _ _ _ _ (H a ltac:(lia))). unfold backoff.
    replace (Nat.ltb a (retries - 1)) with false by (symmetry; apply Nat.ltb_ge; lia).
    cbn [attempts fst snd app]. rewrite count_posts_cons_post, count_posts_nil. cbn [total_sleep].
    split; [reflexivity|split; [reflexivity|]].
    replace (Z.of_nat retries) with (Z.of_nat a + 1) by lia. ring.
  - destruct (IH (S a)) as [G1 [G2 G3]]; [lia|intros i Hi; apply H; lia|].
    rewrite (attempts_raise_step _ _ _ _ (H a ltac:(lia))). unfold backoff.
    replace (Nat.ltb a (retries - 1)) with true by (symmetry; apply Nat.ltb_lt; lia).
    cbn [fst snd app].
    rewrite count_posts_cons_post, count_posts_cons_sleep, G2.
    cbn [total_sleep]. split; [exact G1|split; [reflexivity|]].
    rewrite Nat2Z.inj_succ in G3. lia.
Qed.

(** ** X3: when every post raises (connection error, timeout), the
    request returns [None] after exactly [retries] posts, and sleeps
    [5 * retries * (retries - 1) / 2] seconds in total: 5 s, 10 s, ...
    between attempts. *)
Theorem raising_posts_back_off : forall retries resp,
  (forall i, (i < retries)%nat -> resp i = PostRaises) ->
  fst (make_safe_request retries resp) = JNull /\
  count_posts (snd (make_safe_request retries resp)) = retries /\
  2 * total_sleep (snd (make_safe_request retries resp)) =
    5 * Z.of_nat retries * (Z.of_nat retries - 1).
Proof.
  intros retries resp H. unfold make_safe_request.
  destruct retries as [|k]; [split; [reflexivity|split; reflexivity]|].
  destruct (attempts_all_raise (S k) resp k 0) as [G1 [G2 G3]];
    [lia|intros i Hi; apply H; lia|].
  split; [exact G1|split; [exact G2|]]. rewrite G3. cbn [Z.of_nat]. ring.
Qed.

Lemma raising_posts_back_off_witness :
  fst (make_safe_request 4 (fun _ => PostRaises)) = JNull /\
  count_posts (snd (make_safe_request 4 (fun _ => PostRaises))) = 4%nat /\
  2 * total_sleep (snd (make_safe_request 4 (fun _ => PostRaises))) =
    5 * Z.of_nat 4 * (Z.of_nat 4 - 1).
Proof. apply raising_posts_back_off. intros i _. reflexivity. Defined.

(** ** The request queue *)

Lemma key_eqb_spec : forall a b, key_eqb a b = true <-> a = b.
Proof.
  intros [x|x] [y|y]; cbn [key_eqb]; split; intro H; try discriminate.
  - apply Z.eqb_eq in H. subst. reflexivity.
  - injection H as <-. apply Z.eqb_refl.
  - apply String.eqb_eq in H. subst. reflexivity.
  - injection H as <-. apply String.eqb_refl.
Qed.

Lemma key_eqb_sym : forall a b, key_eqb a b = key_eqb b a.
Proof.
  intros a b. destruct (key_eqb a b) eqn:E; destruct (key_eqb b a) eqn:F; try reflexivity.
  - apply key_eqb_spec in E. subst. rewrite (proj2 (key_eqb_spec b b) eq_refl) in F. discriminate.
  - apply key_eqb_spec in F. subst. rewrite (proj2 (key_eqb_spec a a) eq_refl) in E. discriminate.
Qed.

Lemma find_app_last : forall {A : Type} (f : A -> bool) l x,
  find f (l ++ [x]) = match find f l with Some y => Some y | None => if f x then Some x else None end.
Proof.
  intros A f l x. induction l as [|y r IH]; cbn [find app]; [reflexivity|].
  destruct (f y); [reflexivity|exact IH].
Qed.

Lemma process_queue_spec : forall answer n a,
  request_queue (process_queue answer n a) = skipn n (request_queue a) /\
  forall k, dict_get key_eqb (results (process_queue answer n a)) k =
    match find (fun r => key_eqb (rq_id r) k) (rev (firstn n (request_queue a))) with
    | Some r => Some (serve answer r)
    | None => dict_get key_eqb (results a) k
    end.
Proof.
  intros answer n. induction n as [|n IH]; intros [q res].
  - split; reflexivity.
  - destruct q as [|r q]; [split; reflexivity|].
    cbn [process_queue request_queue].
    destruct (IH {| request_queue := q; results := dict_set key_eqb res (rq_id r) (serve answer r) |})
      as [H1 H2].
    split; [exact H1|]. intros k. rewrite H2. cbn [request_queue results firstn rev].
    rewrite find_app_last.
    destruct (find (fun r0 => key_eqb (rq_id r0) k) (rev (firstn n q))); [reflexivity|].
    rewrite (dict_get_set key_eqb key_eqb_spec), key_eqb_sym.
    destruct (key_eqb (rq_id r) k); reflexivity.
Qed.

(** ** X5: [process_queue(n)] serves the first [n] queued requests in
    insertion order (the priority is ignored) and leaves the rest queued;
    afterwards the results entry of an id is the answer to the last of
    these requests with that id, and is unchanged for any other id. *)
Theorem process_queue_serves_in_order : forall answer n a,
  request_queue (process_queue answer n a) = skipn n (request_queue a) /\
  forall k, dict_get key_eqb (results (process_queue answer n a)) k =
    match find (fun r => key_eqb (rq_id r) k) (rev (firstn n (request_queue a))) with
    | Some r => Some (serve answer r)
    | None => dict_get key_eqb (results a) k
    end.
Proof. exact process_queue_spec. Qed.

(** ** X6: the queue is shared. When a request is already waiting,
    [add_to_queue] followed by [process_queue(max_requests=1)], as each
    caller does, serves the older request: the new one stays queued and
    the results entry for the new id is unchanged, so the caller's
    [results.get(id)] right after sees no answer to its own request. *)
Theorem queued_request_served_first : forall answer a r0 rest ty id query vars prio,
  request_queue a = r0 :: rest -> key_eqb (rq_id r0) id = false ->
  request_queue (process_queue answer 1 (add_to_queue a ty id query vars prio)) =
    (rest ++ [{| rq_type := ty; rq_id := id; rq_query := query;
                 rq_variables := match vars with Some v => v | None => [] end;
                 rq_priority := prio |}])%list /\
  dict_get key_eqb (results (process_queue answer 1 (add_to_queue a ty id query vars prio))) id =
    dict_get key_eqb (results a) id.
Proof.
  intros answer a r0 rest ty id query vars prio Hq Hid.
  destruct (process_queue_spec answer 1 (add_to_queue a ty id query vars prio)) as [H1 H2].
  split.
  - rewrite H1. cbn [add_to_queue request_queue]. rewrite Hq. reflexivity.
  - rewrite H2. cbn [add_to_queue request_queue results]. rewrite Hq.
    cbn [app firstn rev find]. rewrite Hid. reflexivity.
Qed.

Lemma queued_request_served_first_witness :
  request_queue (process_queue (fun _ _ => JNull) 1
     (add_to_queue {| request_queue := [player_sets_request 1]; results := [] |}
        "player_sets" (KInt 2) "PlayerTournaments"
        (Some [("playerId", JInt 2); ("perPage", JInt 60)]) 2)) =
    ([] ++ [{| rq_type := "player_sets"; rq_id := KInt 2; rq_query := "PlayerTournaments";
               rq_variables := match Some [("playerId", JInt 2); ("perPage", JInt 60)] with
                               | Some v => v | None => [] end;
               rq_priority := 2 |}])%list /\
  dict_get key_eqb (results (process_queue (fun _ _ => JNull) 1
     (add_to_queue {| request_queue := [player_sets_request 1]; results := [] |}
        "player_sets" (KInt 2) "PlayerTournaments"
        (Some [("playerId", JInt 2); ("perPage", JInt 60)]) 2))) (KInt 2) =
    dict_get key_eqb (results {| request_queue := [player_sets_request 1]; results := [] |}) (KInt 2).
Proof. apply (queued_request_served_first _ _ (player_sets_request 1) []); reflexivity. Defined.

(** ** Competitor tournament pages *)

Lemma fold_left_ext_in : forall {A B : Type} (f g : A -> B -> A) (l : list B) (a : A),
  (forall acc x, In x l -> f acc x = g acc x) -> fold_left f l a = fold_left g l a.
Proof.
  intros A B f g l. induction l as [|x r IH]; intros a H; cbn [fold_left]; [reflexivity|].
  rewrite (H a x (or_introl eq_refl)). apply IH. intros acc y Hy. apply H. right. exact Hy.
Qed.

Lemma additional_pages_range : forall total p,
  In p (map (fun i => 2 + Z.of_nat i) (seq 0 (Z.to_nat (Z.min 4 (total - 1))))) ->
  2 <= p <= 5 /\ p <= total.
Proof.
  intros total p H. apply in_map_iff in H. destruct H as [i [<- Hi]]. apply in_seq in Hi. lia.
Qed.

(** ** X7: a competitor's tournament map reads at most pages 1 to 5 of
    the paginated query: pages after the fifth, or after [totalPages],
    never change it. *)
Theorem tournaments_read_at_most_five_pages : forall g y n nodes total page page',
  (forall p, 2 <= p <= 5 -> p <= total -> page p = page' p) ->
  get_player_tournaments_simple g y n (Some (nodes, total)) page =
  get_player_tournaments_simple g y n (Some (nodes, total)) page'.
Proof.
  intros g y n nodes total page page' H. unfold get_player_tournaments_simple.
  destruct (1 <? total); [|reflexivity]. f_equal.
  unfold get_additional_player_sets_pages. apply fold_left_ext_in.
  intros acc p Hp. destruct (additional_pages_range _ _ Hp) as [H1 H2].
  rewrite (H p H1 H2). reflexivity.
Qed.

Lemma tournaments_read_at_most_five_pages_witness :
  get_player_tournaments_simple (Some "SF6") 0 1000
    (Some ([node 5 "tournament/evo" "Evo" 500], 10)) renamed_page =
  get_player_tournaments_simple (Some "SF6") 0 1000
    (Some ([node 5 "tournament/evo" "Evo" 500], 10)) renamed_page_and_7.
Proof.
  apply tournaments_read_at_most_five_pages. intros p H1 H2. unfold renamed_page_and_7.
  replace (p =? 7) with false by (symmetry; apply Z.eqb_neq; lia). reflexivity.
Defined.

Lemma add_page_in : forall g y n nodes acc k ti,
  In (k, ti) (add_page g y n acc nodes) -> In (k, ti) acc \/ node_yields g y n nodes k ti.
Proof.
  intros g y n nodes. unfold add_page.
  induction nodes as [|nd r IH]; intros acc k ti H; cbn [fold_left] in H; [left; exact H|].
  destruct (IH _ _ _ H) as [H'|[nd' [Hin Hr]]];
    [|right; exists nd'; split; [right; exact Hin|exact Hr]].
  destruct (wrong_game g (n_game nd)) eqn:Wg; [left; exact H'|].
  destruct (t_startAt (n_tournament nd)) as [d|] eqn:Ed; [|left; exact H'].
  destruct (in_window y n (Some d)) eqn:Iw; [|left; exact H'].
  apply (in_dict_set Z.eqb Z_eqb_spec') in H'. destruct H' as [H'|H']; [left; exact H'|].
  injection H' as -> ->. right. exists nd. cbn [ti_slug ti_name ti_date].
  split; [left; reflexivity|]. repeat split; assumption.
Qed.

Lemma additional_pages_in : forall g y n page total k ti,
  In (k, ti) (get_additional_player_sets_pages g y n page total) ->
  exists p pnodes, 2 <= p <= 5 /\ p <= total /\ page p = Some pnodes /\
                   node_yields g y n pnodes k ti.
Proof.
  intros g y n page total k ti. unfold get_additional_player_sets_pages.
  assert (G : forall ps acc, In (k, ti) (fold_left
      (fun tournaments p => match page p with
                            | Some nodes => add_page g y n tournaments nodes
                            | None => tournaments
                            end) ps acc) ->
      In (k, ti) acc \/ exists p pnodes, In p ps /\ page p = Some pnodes /\ node_yields g y n pnodes k ti).
  { induction ps as [|p r IH]; intros acc H; cbn [fold_left] in H; [left; exact H|].
    destruct (IH _ H) as [H'|[p' [pn [Hp Hr]]]];
      [|right; exists p', pn; split; [right; exact Hp|exact Hr]].
    destruct (page p) as [nodes|] eqn:Ep; [|left; exact H'].
    destruct (add_page_in _ _ _ _ _ _ _ H') as [H''|H'']; [left; exact H''|].
    right. exists p, nodes. split; [left; reflexivity|split; assumption]. }
  intros H. destruct (G _ _ H) as [[]|[p [pn [Hp [Hpg Hy]]]]].
  destruct (additional_pages_range _ _ Hp) as [H1 H2].
  exists p, pn. split; [exact H1|split; [exact H2|split; [exact Hpg|exact Hy]]].
Qed.

Lemma in_dict_update : forall (d e : list (Z * tinfo)) x,
  In x (dict_update Z.eqb d e) -> In x d \/ In x e.
Proof.
  unfold dict_update. intros d e. revert d.
  induction e as [|kv r IH]; intros d x H; cbn [fold_left] in H; [left; exact H|].
  destruct (IH _ _ H) as [H'|H']; [|right; right; exact H'].
  apply (in_dict_set Z.eqb Z_eqb_spec') in H'. destruct H' as [H'|H']; [left; exact H'|].
  right. left. destruct kv. symmetry. exact H'.
Qed.

(** ** X8: every entry of a competitor's tournament map comes from a set
    node of page 1 or of an additional page 2 to 5 whose game is the
    target game (when one is set), whose tournament has that id, slug,
    name and start date, and whose start date is non-zero and within
    [one_year_ago, now]. *)
Theorem tournament_entries_in_window : forall g y n nodes total page k ti,
  In (k, ti) (get_player_tournaments_simple g y n (Some (nodes, total)) page) ->
  in_window y n (Some (ti_date ti)) = true /\
  exists p pnodes,
    ((p = 1 /\ pnodes = nodes) \/ (2 <= p <= 5 /\ p <= total /\ page p = Some pnodes)) /\
    node_yields g y n pnodes k ti.
Proof.
  intros g y n nodes total page k ti H.
  assert (G : exists p pnodes,
    ((p = 1 /\ pnodes = nodes) \/ (2 <= p <= 5 /\ p <= total /\ page p = Some pnodes)) /\
    node_yields g y n pnodes k ti).
  { unfold get_player_tournaments_simple in H.
    assert (F : forall x, In x (add_page g y n [] nodes) -> exists p pnodes,
      ((p = 1 /\ pnodes = nodes) \/ (2 <= p <= 5 /\ p <= total /\ page p = Some pnodes)) /\
      node_yields g y n pnodes (fst x) (snd x)).
    { intros [k' ti'] Hx. destruct (add_page_in _ _ _ _ _ _ _ Hx) as [[]|Hy].
      exists 1, nodes. split; [left; split; reflexivity|exact Hy]. }
    destruct (1 <? total); [|exact (F _ H)].
    destruct (in_dict_update _ _ _ H) as [H'|H']; [exact (F _ H')|].
    destruct (additional_pages_in _ _ _ _ _ _ _ H') as [p [pn [H1 [H2 [H3 H4]]]]].
    exists p, pn. split; [right; split; [exact H1|split; [exact H2|exact H3]]|exact H4]. }
  split; [|exact G].
  destruct G as [p [pn [_ [nd [_ [_ [Hw _]]]]]]]. exact Hw.
Qed.

Lemma tournament_entries_in_window_witness :
  in_window 0 1000 (Some (ti_date {| ti_slug := "tournament/evo"; ti_name := "EVO 2025"; ti_date := 500 |}))
    = true /\
  exists p pnodes,
    ((p = 1 /\ pnodes = [node 5 "tournament/evo" "Evo" 500]) \/
     (2 <= p <= 5 /\ p <= 2 /\ renamed_page p = Some pnodes)) /\
    node_yields (Some "SF6") 0 1000 pnodes 5
      {| ti_slug := "tournament/evo"; ti_name := "EVO 2025"; ti_date := 500 |}.
Proof.
  apply (tournament_entries_in_window (Some "SF6") 0 1000 [node 5 "tournament/evo" "Evo" 500] 2
           renamed_page).
  vm_compute. left. reflexivity.
Defined.

(** ** Competitors and their tournament ids *)

Lemma player_fold_nodup : forall (fetch : Z -> result (list (Z * tinfo))) players acc,
  NoDup (map fst acc) ->
  NoDup (map fst (fold_left
    (fun player_tournaments (it : Z * string) =>
       match fetch (fst it) with
       | Ok [] => player_tournaments
       | Ok ts => dict_set Z.eqb player_tournaments (fst it) (snd it, ts)
       | Raise _ => player_tournaments
       end) players acc)).
Proof.
  intros fetch players. induction players as [|it r IH]; intros acc H; cbn [fold_left]; [exact H|].
  apply IH. destruct (fetch (fst it)) as [[|t ts]|e]; try exact H.
  apply dict_set_nodup; [exact Z_eqb_spec'|exact H].
Qed.

Lemma player_fold_in : forall (fetch : Z -> result (list (Z * tinfo))) players acc x,
  In x (fold_left
    (fun player_tournaments (it : Z * string) =>
       match fetch (fst it) with
       | Ok [] => player_tournaments
       | Ok ts => dict_set Z.eqb player_tournaments (fst it) (snd it, ts)
       | Raise _ => player_tournaments
       end) players acc) ->
  In x acc \/
  (In (fst x, fst (snd x)) players /\ fetch (fst x) = Ok (snd (snd x)) /\ snd (snd x) <> []).
Proof.
  intros fetch players. induction players as [|it r IH]; intros acc x H; cbn [fold_left] in H;
    [left; exact H|].
  destruct (IH _ _ H) as [H'|[H1 [H2 H3]]]; [|right; split; [right; exact H1|split; assumption]].
  destruct (fetch (fst it)) as [[|t ts]|e] eqn:E; try (left; exact H').
  apply (in_dict_set Z.eqb Z_eqb_spec') in H'. destruct H' as [H'|H']; [left; exact H'|].
  subst x. right. cbn [fst snd]. split; [left; destruct it; reflexivity|].
  split; [exact E|discriminate].
Qed.

Lemma player_fold_present : forall (fetch : Z -> result (list (Z * tinfo))) players acc pid,
  (dict_get Z.eqb acc pid <> None \/
   exists tag ts, In (pid, tag) players /\ fetch pid = Ok ts /\ ts <> []) ->
  dict_get Z.eqb (fold_left
    (fun player_tournaments (it : Z * string) =>
       match fetch (fst it) with
       | Ok [] => player_tournaments
       | Ok ts => dict_set Z.eqb player_tournaments (fst it) (snd it, ts)
       | Raise _ => player_tournaments
       end) players acc) pid <> None.
Proof.
  intros fetch players. induction players as [|it r IH]; intros acc pid H; cbn [fold_left].
  - destruct H as [H|[tag [ts [[] _]]]]. exact H.
  - apply IH. destruct H as [H|[tag [ts [[Hin|Hin] [Hf Hne]]]]].
    + left. destruct (fetch (fst it)) as [[|t ts]|e]; try exact H.
      rewrite (dict_get_set Z.eqb Z_eqb_spec'). destruct (pid =? fst it); [discriminate|exact H].
    + subst it. cbn [fst]. rewrite Hf. left. destruct ts as [|t ts]; [contradiction|].
      rewrite (dict_get_set Z.eqb Z_eqb_spec'), Z.eqb_refl. discriminate.
    + right. exists tag, ts. split; [exact Hin|split; assumption].
Qed.

(** ** X9: the competitor map of [get_all_player_tournaments_parallel]
    has one entry per competitor id; an entry [(pid, (tag, ts))] is a seed
    competitor whose fetch returned the non-empty map [ts]; and every seed
    competitor whose fetch returned a non-empty map has an entry. *)
Theorem kept_competitors_have_tournaments : forall seed fetch,
  NoDup (map fst (get_all_player_tournaments_parallel seed fetch)) /\
  (forall pid tag ts, In (pid, (tag, ts)) (get_all_player_tournaments_parallel seed fetch) ->
     In (pid, tag) seed /\ fetch pid = Ok ts /\ ts <> []) /\
  (forall pid tag ts, In (pid, tag) seed -> fetch pid = Ok ts -> ts <> [] ->
     dict_get Z.eqb (get_all_player_tournaments_parallel seed fetch) pid <> None).
Proof.
  intros seed fetch. unfold get_all_player_tournaments_parallel. split; [|split].
  - apply player_fold_nodup. constructor.
  - intros pid tag ts H. destruct (player_fold_in _ _ _ _ H) as [[]|G]. exact G.
  - intros pid tag ts H1 H2 H3. apply player_fold_present. right. exists tag, ts. auto.
Qed.

Lemma in_set_add_iff : forall s y x, In x (set_add s y) <-> In x s \/ x = y.
Proof.
  intros s y x. split; [apply in_set_add|].
  unfold set_add. destruct (existsb (Z.eqb y) s) eqn:E; intros [H|H].
  - exact H.
  - subst. apply existsb_exists in E. destruct E as [z [Hz Ez]]. apply Z.eqb_eq in Ez. subst. exact Hz.
  - apply in_app_iff. left. exact H.
  - apply in_app_iff. right. left. symmetry. exact H.
Qed.

Lemma set_add_nodup : forall s y, NoDup s -> NoDup (set_add s y).
Proof.
  intros s y H. unfold set_add. destruct (existsb (Z.eqb y) s) eqn:E; [exact H|].
  apply nodup_snoc; [exact H|]. intro Hin.
  assert (existsb (Z.eqb y) s = true) by (apply existsb_exists; exists y; split; [exact Hin|apply Z.eqb_refl]).
  congruence.
Qed.

Lemma fold_set_add_spec : forall l s,
  (NoDup s -> NoDup (fold_left set_add l s)) /\
  (forall x, In x (fold_left set_add l s) <-> In x s \/ In x l).
Proof.
  induction l as [|y r IH]; intros s; cbn [fold_left].
  - split; [auto|]. intros x. split; [auto|intros [H|[]]; exact H].
  - destruct (IH (set_add s y)) as [H1 H2]. split.
    + intros H. apply H1. apply set_add_nodup. exact H.
    + intros x. rewrite H2, in_set_add_iff. cbn [In]. intuition congruence.
Qed.

(** ** X10: [get_all_tournament_ids] holds each tournament id once, and
    exactly the ids listed in some competitor's tournament map. *)
Theorem tournament_ids_union : forall pts,
  NoDup (get_all_tournament_ids pts) /\
  forall t, In t (get_all_tournament_ids pts) <->
            exists pid v, In (pid, v) pts /\ In t (map fst (snd v)).
Proof.
  intros pts. unfold get_all_tournament_ids.
  assert (G : forall acc, NoDup acc ->
     NoDup (fold_left (fun all_tournament_ids player_data =>
                         fold_left set_add (map fst (snd (snd player_data))) all_tournament_ids) pts acc) /\
     forall t, In t (fold_left (fun all_tournament_ids player_data =>
                         fold_left set_add (map fst (snd (snd player_data))) all_tournament_ids) pts acc) <->
               In t acc \/ exists pid v, In (pid, v) pts /\ In t (map fst (snd v))).
  { induction pts as [|pd r IH]; intros acc Hacc; cbn [fold_left].
    - split; [exact Hacc|]. intros t. split; [auto|intros [H|[pid [v [[] _]]]]; exact H].
    - destruct (fold_set_add_spec (map fst (snd (snd pd))) acc) as [F1 F2].
      destruct (IH _ (F1 Hacc)) as [G1 G2]. split; [exact G1|].
      intros t. rewrite G2, F2. split.
      + intros [[H|H]|[pid [v [Hin Ht]]]]; [left; exact H| |].
        * right. exists (fst pd), (snd pd). split; [left; destruct pd; reflexivity|exact H].
        * right. exists pid, v. split; [right; exact Hin|exact Ht].
      + intros [H|[pid [v [[Hin|Hin] Ht]]]]; [left; left; exact H| |].
        * subst pd. left. right. exact Ht.
        * right. exists pid, v. split; assumption. }
  destruct (G [] (NoDup_nil _)) as [G1 G2]. split; [exact G1|].
  intros t. rewrite G2. split; [intros [[]|H]; exact H|intros H; right; exact H].
Qed.

(** ** Shared tournaments *)

Lemma set_add_idem : forall s x, set_add (set_add s x) x = set_add s x.
Proof.
  intros s x. unfold set_add at 1.
  replace (existsb (Z.eqb x) (set_add s x)) with true; [reflexivity|].
  symmetry. apply existsb_exists. exists x. split; [|apply Z.eqb_refl].
  apply in_set_add_iff. right. reflexivity.
Qed.

Lemma counts_inner_spec : forall pid ks c t,
  dict_get Z.eqb
    (fold_left
       (fun counts tourney_id =>
          let counts :=
            if negb (dict_mem Z.eqb counts tourney_id)
            then dict_set Z.eqb counts tourney_id [] else counts in
          dict_set Z.eqb counts tourney_id
            (set_add (match dict_get Z.eqb counts tourney_id with Some s => s | None => [] end) pid))
       ks c) t =
  if existsb (Z.eqb t) ks
  then Some (set_add (match dict_get Z.eqb c t with Some s => s | None => [] end) pid)
  else dict_get Z.eqb c t.
Proof.
  intros pid ks. induction ks as [|x r IH]; intros c t; cbn [fold_left existsb]; [reflexivity|].
  rewrite IH. cbv zeta.
  set (c1 := if negb (dict_mem Z.eqb c x) then dict_set Z.eqb c x [] else c).
  assert (E1 : forall u, dict_get Z.eqb c1 u =
                 if u =? x then Some (match dict_get Z.eqb c x with Some s => s | None => [] end)
                 else dict_get Z.eqb c u).
  { intros u. unfold c1, dict_mem.
    destruct (dict_get Z.eqb c x) as [s|] eqn:Ex; cbn [negb].
    - destruct (u =? x) eqn:Eu; [|reflexivity]. apply Z.eqb_eq in Eu. subst. exact Ex.
    - rewrite (dict_get_set Z.eqb Z_eqb_spec'). destruct (u =? x) eqn:Eu; [reflexivity|reflexivity]. }
  rewrite !(dict_get_set Z.eqb Z_eqb_spec'), !E1, Z.eqb_refl.
  destruct (t =? x) eqn:Et.
  - apply Z.eqb_eq in Et. subst. cbn [orb].
    destruct (existsb (Z.eqb x) r); [rewrite set_add_idem|]; reflexivity.
  - cbn [orb]. reflexivity.
Qed.

Lemma counts_spec : forall (pts : list (Z * (string * list (Z * tinfo)))) (c : list (Z * list Z)) t,
  dict_get Z.eqb
    (fold_left
       (fun counts player_data =>
          let player_id := fst player_data in
          fold_left
            (fun counts tourney_id =>
               let counts :=
                 if negb (dict_mem Z.eqb counts tourney_id)
                 then dict_set Z.eqb counts tourney_id [] else counts in
               dict_set Z.eqb counts tourney_id
                 (set_add (match dict_get Z.eqb counts tourney_id with Some s => s | None => [] end)
                          player_id))
            (map fst (snd (snd player_data))) counts)
       pts c) t =
  competitors_listing t pts (dict_get Z.eqb c t).
Proof.
  unfold competitors_listing.
  induction pts as [|pd r IH]; intros c t; cbn [fold_left]; [reflexivity|].
  rewrite IH. f_equal. cbv zeta. rewrite counts_inner_spec. reflexivity.
Qed.

Lemma counts_nodup_keys : forall (pts : list (Z * (string * list (Z * tinfo)))) (c : list (Z * list Z)),
  NoDup (map fst c) ->
  NoDup (map fst
    (fold_left
       (fun counts player_data =>
          let player_id := fst player_data in
          fold_left
            (fun counts tourney_id =>
               let counts :=
                 if negb (dict_mem Z.eqb counts tourney_id)
                 then dict_set Z.eqb counts tourney_id [] else counts in
               dict_set Z.eqb counts tourney_id
                 (set_add (match dict_get Z.eqb counts tourney_id with Some s => s | None => [] end)
                          player_id))
            (map fst (snd (snd player_data))) counts)
       pts c)).
Proof.
  induction pts as [|pd r IH]; intros c H; cbn [fold_left]; [exact H|].
  apply IH. cbv zeta. generalize (map fst (snd (snd pd))) as ks. intros ks. revert c H.
  induction ks as [|x ks IHk]; intros c H; cbn [fold_left]; [exact H|].
  apply IHk. apply dict_set_nodup; [exact Z_eqb_spec'|].
  destruct (negb (dict_mem Z.eqb c x)); [|exact H].
  apply dict_set_nodup; [exact Z_eqb_spec'|exact H].
Qed.

Lemma in_map_fst_existsb : forall (ts : list (Z * tinfo)) t,
  existsb (Z.eqb t) (map fst ts) = true <-> In t (map fst ts).
Proof.
  intros ts t. rewrite existsb_exists. split.
  - intros [x [Hx Ex]]. apply Z.eqb_eq in Ex. subst. exact Hx.
  - intros H. exists t. split; [exact H|apply Z.eqb_refl].
Qed.

Lemma competitors_listing_spec : forall t pts o,
  (forall s0, o = Some s0 -> NoDup s0) ->
  (competitors_listing t pts o = None <-> o = None /\ forall p, ~ lists_tournament pts p t) /\
  (forall s, competitors_listing t pts o = Some s ->
     NoDup s /\ forall p, In p s <-> (exists s0, o = Some s0 /\ In p s0) \/ lists_tournament pts p t).
Proof.
  unfold competitors_listing, lists_tournament.
  induction pts as [|pd r IH]; intros o Ho; cbn [fold_left].
  - split.
    + split; [intros H; split; [exact H|intros p [v [[] _]]]|intros [H _]; exact H].
    + intros s Hs. split; [exact (Ho s Hs)|]. intros p. split.
      * intros Hp. left. exists s. split; [exact Hs|exact Hp].
      * intros [[s0 [E Hp]]|[v [[] _]]]. rewrite Hs in E. injection E as <-. exact Hp.
  - set (o' := if existsb (Z.eqb t) (map fst (snd (snd pd)))
               then Some (set_add (match o with Some s => s | None => [] end) (fst pd)) else o).
    assert (Ho' : forall s0, o' = Some s0 -> NoDup s0).
    { intros s0 E. unfold o' in E. destruct (existsb (Z.eqb t) (map fst (snd (snd pd)))).
      - injection E as <-. apply set_add_nodup. destruct o as [s1|]; [exact (Ho s1 eq_refl)|constructor].
      - exact (Ho s0 E). }
    destruct (IH o' Ho') as [N S]. split.
    + rewrite N. unfold o'. destruct (existsb (Z.eqb t) (map fst (snd (snd pd)))) eqn:Eh.
      * split; [intros [H _]; discriminate|].
        intros [_ H]. exfalso. apply (H (fst pd)). exists (snd pd).
        split; [left; destruct pd; reflexivity|apply in_map_fst_existsb; exact Eh].
      * split; intros [H1 H2]; split; try exact H1.
        -- intros p [v [[Hin|Hin] Ht]].
           ++ subst pd. cbn [snd] in Eh. apply in_map_fst_existsb in Ht. congruence.
           ++ apply (H2 p). exists v. split; assumption.
        -- intros p [v [Hin Ht]]. apply (H2 p). exists v. split; [right; exact Hin|exact Ht].
    + intros s Hs. destruct (S s Hs) as [Nd Hm]. split; [exact Nd|]. intros p. rewrite Hm.
      unfold o'. destruct (existsb (Z.eqb t) (map fst (snd (snd pd)))) eqn:Eh.
      * split.
        -- intros [[s0 [E Hp]]|[v [Hin Ht]]].
           ++ injection E as <-. apply in_set_add_iff in Hp. destruct Hp as [Hp|Hp].
              ** destruct o as [s1|]; [left; exists s1; split; [reflexivity|exact Hp]|destruct Hp].
              ** subst p. right. exists (snd pd). split; [left; destruct pd as [? [? ?]]; reflexivity|].
                 apply in_map_fst_existsb. exact Eh.
           ++ right. exists v. split; [right; exact Hin|exact Ht].
        -- intros [[s0 [E Hp]]|[v [[Hin|Hin] Ht]]].
           ++ subst o. left. exists (set_add s0 (fst pd)). split; [reflexivity|].
              apply in_set_add_iff. left. exact Hp.
           ++ subst pd. left. eexists. split; [reflexivity|]. apply in_set_add_iff. right. reflexivity.
           ++ right. exists v. split; assumption.
      * split.
        -- intros [[s0 [E Hp]]|[v [Hin Ht]]].
           ++ left. exists s0. split; assumption.
           ++ right. exists v. split; [right; exact Hin|exact Ht].
        -- intros [[s0 [E Hp]]|[v [[Hin|Hin] Ht]]].
           ++ left. exists s0. split; assumption.
           ++ subst pd. cbn [snd] in Eh. apply in_map_fst_existsb in Ht. congruence.
           ++ right. exists v. split; assumption.
Qed.

Lemma fold_dict_set_opt : forall {A B : Type} (G : Z -> A -> option B) (l : list (Z * A)) acc t,
  NoDup (map fst l) ->
  dict_get Z.eqb
    (fold_left (fun acc kv => match G (fst kv) (snd kv) with
                              | Some v => dict_set Z.eqb acc (fst kv) v
                              | None => acc
                              end) l acc) t =
  match dict_get Z.eqb l t with
  | Some s => match G t s with Some v => Some v | None => dict_get Z.eqb acc t end
  | None => dict_get Z.eqb acc t
  end.
Proof.
  intros A B G l. induction l as [|[k s] r IH]; intros acc t H; cbn [fold_left dict_get fst snd];
    [reflexivity|].
  inversion H as [|? ? Hn Hr]; subst. rewrite (IH _ _ Hr).
  destruct (t =? k) eqn:Et.
  - apply Z.eqb_eq in Et. subst. rewrite (dict_get_not_in Z.eqb Z_eqb_spec') by exact Hn.
    destruct (G k s); [rewrite (dict_get_set Z.eqb Z_eqb_spec'), Z.eqb_refl|]; reflexivity.
  - destruct (dict_get Z.eqb r t) as [s'|]; [destruct (G t s'); [reflexivity|]|];
      (destruct (G k s); [rewrite (dict_get_set Z.eqb Z_eqb_spec'), Et|]; reflexivity).
Qed.

Lemma find_shared_spec : forall pts t,
  dict_get Z.eqb (find_shared_tournaments pts) t =
  match competitors_listing t pts None with
  | Some s => shared_entry pts t s
  | None => None
  end.
Proof.
  intros pts t. unfold find_shared_tournaments.
  rewrite (fold_left_ext_in _
    (fun acc kv => match shared_entry pts (fst kv) (snd kv) with
                   | Some v => dict_set Z.eqb acc (fst kv) v
                   | None => acc
                   end)).
  - rewrite fold_dict_set_opt.
    + unfold tournament_player_counts. rewrite counts_spec. cbn [dict_get].
      destruct (competitors_listing t pts None); [|reflexivity].
      destruct (shared_entry pts t l); reflexivity.
    + apply counts_nodup_keys. constructor.
  - intros acc [k s] _. cbn [fst snd]. unfold shared_entry.
    destruct (Nat.leb 2 (List.length s)); [|reflexivity].
    destruct (find _ pts) as [pd|]; [|reflexivity].
    destruct (dict_get Z.eqb (snd (snd pd)) k); reflexivity.
Qed.

Lemma two_members_length : forall (s : list Z) a b, In a s -> In b s -> a <> b -> (2 <= List.length s)%nat.
Proof.
  intros [|x [|y r]] a b Ha Hb Hab; cbn [List.length]; try lia.
  - destruct Ha.
  - destruct Ha as [<-|[]]. destruct Hb as [<-|[]]. contradiction.
Qed.

Lemma dict_get_key : forall {V : Type} (d : list (Z * V)) k,
  In k (map fst d) -> dict_get Z.eqb d k <> None.
Proof.
  intros V d k. induction d as [|[k1 v1] r IH]; cbn [map fst dict_get In]; [intros []|].
  intros [E|H]; destruct (k =? k1) eqn:E1; try discriminate.
  - subst. rewrite Z.eqb_refl in E1. discriminate.
  - exact (IH H).
Qed.

Lemma find_listing_entry : forall pts p t,
  lists_tournament pts p t ->
  exists pd ti, find (fun player_data => dict_mem Z.eqb (snd (snd player_data)) t) pts = Some pd /\
                dict_get Z.eqb (snd (snd pd)) t = Some ti.
Proof.
  intros pts p t [v [Hin Ht]].
  destruct (find (fun player_data => dict_mem Z.eqb (snd (snd player_data)) t) pts) as [pd|] eqn:F.
  - pose proof (find_some _ _ F) as [_ F']. unfold dict_mem in F'.
    destruct (dict_get Z.eqb (snd (snd pd)) t) as [ti|] eqn:G; [|discriminate].
    exists pd, ti. split; [reflexivity|exact G].
  - exfalso. apply (find_none _ _ F) in Hin. cbn [snd] in Hin. unfold dict_mem in Hin.
    apply dict_get_key in Ht. destruct (dict_get Z.eqb (snd v) t); [discriminate|].
    exact (Ht eq_refl).
Qed.

(** ** X11: a tournament is in the map of [find_shared_tournaments]
    exactly when at least two distinct competitors list it. *)
Theorem shared_iff_two_competitors : forall pts t,
  (exists sh, dict_get Z.eqb (find_shared_tournaments pts) t = Some sh) <->
  exists p1 p2, p1 <> p2 /\ lists_tournament pts p1 t /\ lists_tournament pts p2 t.
Proof.
  intros pts t. rewrite find_shared_spec.
  destruct (competitors_listing_spec t pts None) as [N S]; [intros; discriminate|].
  split.
  - intros [sh H]. destruct (competitors_listing t pts None) as [s|] eqn:E; [|discriminate].
    destruct (S s eq_refl) as [Nd Hm]. unfold shared_entry in H.
    destruct (Nat.leb 2 (List.length s)) eqn:L; [|discriminate]. apply Nat.leb_le in L.
    destruct s as [|a [|b r]]; cbn [List.length] in L; try lia.
    exists a, b. inversion Nd as [|? ? Ha _]; subst. split.
    + intro Hab. subst. apply Ha. left. reflexivity.
    + split.
      * destruct (proj1 (Hm a) (or_introl eq_refl)) as [[s0 [E0 _]]|G]; [discriminate|exact G].
      * destruct (proj1 (Hm b) (or_intror (or_introl eq_refl))) as [[s0 [E0 _]]|G]; [discriminate|exact G].
  - intros [p1 [p2 [Hne [H1 H2]]]].
    destruct (competitors_listing t pts None) as [s|] eqn:E.
    + destruct (S s eq_refl) as [_ Hm].
      assert (I1 : In p1 s) by (apply Hm; right; exact H1).
      assert (I2 : In p2 s) by (apply Hm; right; exact H2).
      unfold shared_entry. replace (Nat.leb 2 (List.length s)) with true
        by (symmetry; apply Nat.leb_le; exact (two_members_length s p1 p2 I1 I2 Hne)).
      destruct (find_listing_entry pts p1 t H1) as [pd [ti [F G]]]. rewrite F, G.
      eexists. reflexivity.
    + exfalso. destruct (proj1 N eq_refl) as [_ H]. exact (H p1 H1).
Qed.

(** ** X12: an entry of [find_shared_tournaments] for tournament [t]
    lists each competitor that has [t] exactly once, its [player_count]
    is the number of these competitors, and its slug, name and date are
    those of the first competitor (in map order) whose map lists [t]. *)
Theorem shared_entry_fields : forall pts t sh,
  dict_get Z.eqb (find_shared_tournaments pts) t = Some sh ->
  sh_player_count sh = Z.of_nat (List.length (sh_players sh)) /\
  NoDup (sh_players sh) /\
  (forall p, In p (sh_players sh) <-> lists_tournament pts p t) /\
  exists pd ti,
    find (fun player_data => dict_mem Z.eqb (snd (snd player_data)) t) pts = Some pd /\
    dict_get Z.eqb (snd (snd pd)) t = Some ti /\
    sh_slug sh = ti_slug ti /\ sh_name sh = ti_name ti /\ sh_date sh = ti_date ti.
Proof.
  intros pts t sh H. rewrite find_shared_spec in H.
  destruct (competitors_listing_spec t pts None) as [_ S]; [intros; discriminate|].
  destruct (competitors_listing t pts None) as [s|] eqn:E; [|discriminate].
  destruct (S s eq_refl) as [Nd Hm]. unfold shared_entry in H.
  destruct (Nat.leb 2 (List.length s)); [|discriminate].
  destruct (find _ pts) as [pd|] eqn:F; [|discriminate].
  destruct (dict_get Z.eqb (snd (snd pd)) t) as [ti|] eqn:G; [|discriminate].
  injection H as <-. cbn [sh_player_count sh_players sh_slug sh_name sh_date].
  split; [reflexivity|]. split; [exact Nd|]. split.
  - intros p. rewrite Hm. split; [intros [[s0 [E0 _]]|Hp]; [discriminate|exact Hp]|intros Hp; right; exact Hp].
  - exists pd, ti. split; [reflexivity|]. split; [exact G|]. split; [reflexivity|split; reflexivity].
Qed.

Lemma shared_entry_fields_witness :
  exists sh, dict_get Z.eqb (find_shared_tournaments
     [(1, ("A", [(10, evo_info); (11, evo_info)])); (2, ("B", [(11, evo_info)]))]) 11 = Some sh /\
  (sh_player_count sh = Z.of_nat (List.length (sh_players sh)) /\
   NoDup (sh_players sh) /\
   (forall p, In p (sh_players sh) <->
      lists_tournament [(1, ("A", [(10, evo_info); (11, evo_info)])); (2, ("B", [(11, evo_info)]))] p 11) /\
   exists pd ti,
     find (fun player_data => dict_mem Z.eqb (snd (snd player_data)) 11)
       [(1, ("A", [(10, evo_info); (11, evo_info)])); (2, ("B", [(11, evo_info)]))] = Some pd /\
     dict_get Z.eqb (snd (snd pd)) 11 = Some ti /\
     sh_slug sh = ti_slug ti /\ sh_name sh = ti_name ti /\ sh_date sh = ti_date ti).
Proof.
  eexists. split; [vm_compute; reflexivity|].
  apply shared_entry_fields. vm_compute. reflexivity.
Defined.

(** ** Batches and the tournament cache *)

Lemma batches_concat : forall {A : Type} fuel n (l : list A),
  (0 < n)%nat -> (List.length l <= fuel)%nat -> List.concat (batches fuel n l) = l.
Proof.
  intros A fuel n. induction fuel as [|f IH]; intros l Hn Hl.
  - destruct l; [reflexivity|cbn [List.length] in Hl; lia].
  - destruct l as [|x r]; [reflexivity|]. cbn [batches List.concat].
    rewrite IH; [apply firstn_skipn|exact Hn|].
    rewrite length_skipn. cbn [List.length] in *. lia.
Qed.

Lemma in_batches : forall {A : Type} fuel n (l : list A) b x,
  In b (batches fuel n l) -> In x b -> In x l.
Proof.
  intros A fuel n. induction fuel as [|f IH]; intros l b x Hb Hx; [destruct Hb|].
  destruct l as [|y r]; [destruct Hb|]. destruct Hb as [<-|Hb].
  - rewrite <- (firstn_skipn n (y :: r)). apply in_or_app. left. exact Hx.
  - rewrite <- (firstn_skipn n (y :: r)). apply in_or_app. right. exact (IH _ _ _ Hb Hx).
Qed.

Lemma tournament_slugs_nodup : forall ids pts, NoDup (map fst (tournament_slugs ids pts)).
Proof.
  intros ids pts. unfold tournament_slugs.
  assert (G : forall acc, NoDup (map fst acc) ->
    NoDup (map fst (fold_left
      (fun acc tid =>
         match find (fun pd => dict_mem Z.eqb (snd pd) tid) pts with
         | Some pd =>
             match dict_get Z.eqb (snd pd) tid with
             | Some ti => dict_set Z.eqb acc tid (ti_slug ti)
             | None => acc
             end
         | None => acc
         end) ids acc))).
  { induction ids as [|t r IH]; intros acc H; cbn [fold_left]; [exact H|]. apply IH.
    destruct (find _ pts) as [pd|]; [|exact H].
    destruct (dict_get Z.eqb (snd pd) t); [|exact H].
    apply dict_set_nodup; [exact Z_eqb_spec'|exact H]. }
  apply G. constructor.
Qed.

Lemma run_batch_all_cached : forall fetch_ok c d batch,
  (forall it, In it batch -> dict_mem String.eqb (tournament_cache c) (snd it) = true) ->
  run_batch fetch_ok c d batch = (c, cache_hits (tournament_cache c) batch d).
Proof.
  intros fetch_ok [cache log] d batch H. cbn [tournament_cache] in *. unfold run_batch.
  cbn [tournament_cache net_log].
  match goal with |- context [fold_left ?f batch (d, [])] =>
    assert (E1 : forall d q, fold_left f batch (d, q) = (cache_hits cache batch d, q)) end.
  { unfold cache_hits. clear d. induction batch as [|[tid slug] r IH]; intros d q;
      cbn [fold_left]; [reflexivity|].
    pose proof (H (tid, slug) (or_introl eq_refl)) as Hm. cbn [snd] in Hm. unfold dict_mem in Hm.
    cbv beta iota. cbn [snd fst].
    destruct (dict_get String.eqb cache slug); [|discriminate].
    apply IH. intros it Hi. apply H. right. exact Hi. }
  rewrite E1. cbn [fold_left]. generalize (cache_hits cache batch d) as d1. intros d1.
  match goal with |- context [fold_left ?g batch (cache, d1)] =>
    assert (E3 : forall d', fold_left g batch (cache, d') = (cache, d')) end.
  { clear E1. induction batch as [|[tid slug] r IH]; intros d'; cbn [fold_left]; [reflexivity|].
    pose proof (H (tid, slug) (or_introl eq_refl)) as Hm. cbn [snd] in Hm.
    cbv beta iota. rewrite Hm. apply IH. intros it Hi. apply H. right. exact Hi. }
  rewrite E3. reflexivity.
Qed.

Lemma process_list_all_cached : forall fetch_ok c bs d,
  (forall b it, In b bs -> In it b -> dict_mem String.eqb (tournament_cache c) (snd it) = true) ->
  fold_left (fun acc batch => run_batch fetch_ok (fst acc) (snd acc) batch) bs (c, d) =
  (c, cache_hits (tournament_cache c) (List.concat bs) d).
Proof.
  intros fetch_ok c bs. induction bs as [|b r IH]; intros d H; cbn [fold_left List.concat]; [reflexivity|].
  cbn [fst snd]. rewrite run_batch_all_cached by (intros it Hi; exact (H b it (or_introl eq_refl) Hi)).
  rewrite IH by (intros b' it Hb Hi; exact (H b' it (or_intror Hb) Hi)).
  unfold cache_hits. rewrite fold_left_app. reflexivity.
Qed.

Lemma run_batch_requests : forall fetch_ok c d b,
  (exists L, net_log (fst (run_batch fetch_ok c d b)) = (net_log c ++ L)%list /\
     forall s, In s L ->
       dict_mem String.eqb (tournament_cache c) s = false /\ exists tid, In (tid, s) b) /\
  (forall s, dict_mem String.eqb (tournament_cache c) s = true ->
     dict_mem String.eqb (tournament_cache (fst (run_batch fetch_ok c d b))) s = true).
Proof.
  intros fetch_ok [cache log] d b. unfold run_batch. cbn [tournament_cache net_log].
  match goal with |- context [fold_left ?f b (d, [])] =>
    assert (E1 : forall d0 q, exists d1, fold_left f b (d0, q) =
      (d1, (q ++ filter (fun it => negb (dict_mem String.eqb cache (snd it))) b)%list)) end.
  { induction b as [|[tid slug] r IH]; intros d0 q; cbn [fold_left filter];
      [exists d0; rewrite app_nil_r; reflexivity|].
    cbv beta iota. cbn [snd]. unfold dict_mem at 1.
    destruct (dict_get String.eqb cache slug) eqn:G; cbn [negb].
    - apply IH.
    - destruct (IH d0 (q ++ [(tid, slug)])%list) as [d1 H]. exists d1.
      rewrite H, <- app_assoc. reflexivity. }
  destruct (E1 d []) as [d1 ->]. cbn [app].
  match goal with |- context [fold_left ?g ?qs (log, [])] =>
    assert (E2 : forall qs' lg res, exists r', fold_left g qs' (lg, res) = ((lg ++ map snd qs')%list, r'));
    [|destruct (E2 qs log []) as [results ->]] end.
  { clear E1. induction qs' as [|it r IH]; intros lg res; cbn [fold_left map];
      [exists res; rewrite app_nil_r; reflexivity|].
    match goal with |- exists _, fold_left _ r (?l, ?rs) = _ => destruct (IH l rs) as [r' H] end.
    exists r'. rewrite H, <- app_assoc. reflexivity. }
  match goal with |- context [fold_left ?h b (cache, d1)] =>
    assert (E3 : forall cc dd s, dict_mem String.eqb cc s = true ->
                 dict_mem String.eqb (fst (fold_left h b (cc, dd))) s = true) end.
  { clear E1 E2. induction b as [|[tid slug] r IH]; intros cc dd s H; cbn [fold_left]; [exact H|].
    destruct (dict_mem String.eqb cc slug); [apply IH; exact H|].
    destruct (dict_get Z.eqb results tid) as [[obj|]|]; apply IH; [|exact H|exact H].
    unfold dict_mem in *. rewrite (dict_get_set String.eqb String.eqb_eq).
    destruct (String.eqb s slug); [reflexivity|exact H]. }
  destruct (fold_left _ b (cache, d1)) as [cache2 details2] eqn:F.
  cbn [fst net_log tournament_cache]. split.
  - eexists. split; [reflexivity|]. intros s Hs.
    apply in_map_iff in Hs as [[tid s'] [Hs' Hin]]. cbn [snd] in Hs'. subst s'.
    apply filter_In in Hin as [Hin Hm]. cbn [snd] in Hm.
    split; [destruct (dict_mem String.eqb cache s); [discriminate|reflexivity]|].
    exists tid. exact Hin.
  - intros s Hs. pose proof (E3 cache d1 s Hs) as G. rewrite F in G. exact G.
Qed.

Lemma process_list_requests : forall fetch_ok bs c d,
  exists L,
    net_log (fst (fold_left (fun acc batch => run_batch fetch_ok (fst acc) (snd acc) batch)
                            bs (c, d))) = (net_log c ++ L)%list /\
    forall s, In s L -> dict_mem String.eqb (tournament_cache c) s = false /\
                        exists b tid, In b bs /\ In (tid, s) b.
Proof.
  intros fetch_ok bs. induction bs as [|b r IH]; intros c d; cbn [fold_left].
  - exists []. split; [symmetry; apply app_nil_r|intros s []].
  - cbn [fst snd].
    destruct (run_batch_requests fetch_ok c d b) as [[L1 [H1 H1']] M].
    destruct (run_batch fetch_ok c d b) as [c1 d1]. cbn [fst] in H1, M.
    destruct (IH c1 d1) as [L2 [H2 H2']]. exists (L1 ++ L2)%list.
    split; [rewrite H2, H1, app_assoc; reflexivity|].
    intros s Hs. apply in_app_or in Hs as [Hs|Hs].
    + destruct (H1' s Hs) as [A [tid B]].
      split; [exact A|exists b, tid; split; [left; reflexivity|exact B]].
    + destruct (H2' s Hs) as [A [b' [tid [B C]]]]. split.
      * destruct (dict_mem String.eqb (tournament_cache c) s) eqn:G; [|reflexivity].
        rewrite (M s G) in A. discriminate.
      * exists b', tid. split; [right; exact B|exact C].
Qed.

(** ** X4: [batch_process_tournament_data] never requests a slug that the
    cache held when it started: the network log only grows, and every slug
    it adds was absent from the cache at the start and is the slug of a
    tournament of the list built from [tournament_ids]. *)
Theorem cached_slugs_never_requested : forall fetch_ok c ids pts,
  exists L,
    net_log (fst (batch_process_tournament_data fetch_ok c ids pts)) = (net_log c ++ L)%list /\
    forall s, In s L -> dict_mem String.eqb (tournament_cache c) s = false /\
                        exists tid, In (tid, s) (tournament_slugs ids pts).
Proof.
  intros fetch_ok c ids pts. unfold batch_process_tournament_data, process_tournament_list.
  destruct (process_list_requests fetch_ok
              (batches (List.length (tournament_slugs ids pts)) 12 (tournament_slugs ids pts)) c [])
    as [L [H1 H2]].
  exists L. split; [exact H1|]. intros s Hs. destruct (H2 s Hs) as [A [b [tid [B C]]]].
  split; [exact A|]. exists tid. exact (in_batches _ _ _ _ _ B C).
Qed.

(** ** X13: when the cache already holds the slug of every tournament to
    process, [batch_process_tournament_data] sends no request and leaves
    the cache as it is, and each tournament id is mapped to the cached
    object of its slug (the slug of the first competitor listing it). *)
Theorem all_cached_no_requests : forall fetch_ok c ids pts,
  (forall tid slug, In (tid, slug) (tournament_slugs ids pts) ->
     dict_mem String.eqb (tournament_cache c) slug = true) ->
  fst (batch_process_tournament_data fetch_ok c ids pts) = c /\
  forall tid,
    dict_get Z.eqb (snd (batch_process_tournament_data fetch_ok c ids pts)) tid =
    match dict_get Z.eqb (tournament_slugs ids pts) tid with
    | Some slug => dict_get String.eqb (tournament_cache c) slug
    | None => None
    end.
Proof.
  intros fetch_ok c ids pts H. unfold batch_process_tournament_data, process_tournament_list.
  rewrite process_list_all_cached.
  - rewrite batches_concat by lia. cbn [fst snd]. split; [reflexivity|]. intros tid.
    unfold cache_hits.
    rewrite (fold_dict_set_opt (fun (_ : Z) slug => dict_get String.eqb (tournament_cache c) slug))
      by apply tournament_slugs_nodup.
    cbn [dict_get]. destruct (dict_get Z.eqb (tournament_slugs ids pts) tid); [|reflexivity].
    destruct (dict_get String.eqb (tournament_cache c) _); reflexivity.
  - intros b [tid slug] Hb Hi. apply (H tid slug). exact (in_batches _ _ _ _ _ Hb Hi).
Qed.

Lemma all_cached_no_requests_witness :
  fst (batch_process_tournament_data (fun _ => true)
         {| tournament_cache := [("tournament/evo", 7%nat)]; net_log := ["x"] |} [1; 2]
         [(100, [(1, evo_info); (2, evo_info)])]) =
    {| tournament_cache := [("tournament/evo", 7%nat)]; net_log := ["x"] |} /\
  forall tid,
    dict_get Z.eqb (snd (batch_process_tournament_data (fun _ => true)
         {| tournament_cache := [("tournament/evo", 7%nat)]; net_log := ["x"] |} [1; 2]
         [(100, [(1, evo_info); (2, evo_info)])])) tid =
    match dict_get Z.eqb (tournament_slugs [1; 2] [(100, [(1, evo_info); (2, evo_info)])]) tid with
    | Some slug => dict_get String.eqb [("tournament/evo", 7%nat)] slug
    | None => None
    end.
Proof.
  apply (all_cached_no_requests (fun _ => true)
           {| tournament_cache := [("tournament/evo", 7%nat)]; net_log := ["x"] |} [1; 2]
           [(100, [(1, evo_info); (2, evo_info)])]).
  intros tid slug Hin. vm_compute in Hin.
  destruct Hin as [E|[E|[]]]; injection E as _ <-; reflexivity.
Defined.

(** ** Shared tournament sets *)

Local Open Scope list_scope.

Lemma fold_inv : forall {A B : Type} (f : B -> A -> B) (P : list A -> B -> Prop) (l : list A) (b : B),
  P [] b -> (forall done x acc, P done acc -> In x l -> P (done ++ [x]) (f acc x)) ->
  P l (fold_left f l b).
Proof.
  intros A B f P l b H0 Hs.
  assert (G : forall pre suf b, l = pre ++ suf -> P pre b -> P l (fold_left f suf b)).
  { intros pre suf. revert pre. induction suf as [|x r IH]; intros pre b' El Hp; cbn [fold_left].
    - rewrite app_nil_r in El. subst. exact Hp.
    - apply (IH (pre ++ [x])); [rewrite <- app_assoc; exact El|].
      apply Hs; [exact Hp|]. rewrite El. apply in_or_app. right. left. reflexivity. }
  exact (G [] l b eq_refl H0).
Qed.

Lemma dict_get_nodup_in : forall {V : Type} (d : list (Z * V)) k v,
  NoDup (map fst d) -> In (k, v) d -> dict_get Z.eqb d k = Some v.
Proof.
  intros V d k v. induction d as [|[k1 v1] r IH]; intros Hn Hi; [destruct Hi|].
  inversion Hn as [|? ? Hk Hr]; subst. cbn [dict_get]. destruct Hi as [E|Hi].
  - injection E as <- <-. rewrite Z.eqb_refl. reflexivity.
  - destruct (k =? k1) eqn:E.
    + apply Z.eqb_eq in E. subst. exfalso. apply Hk. apply (in_map fst _ _ Hi).
    + exact (IH Hr Hi).
Qed.

Lemma nth_error_extend : forall {A : Type} (l e : list A) n x,
  nth_error l n = Some x -> nth_error (l ++ e) n = Some x.
Proof.
  intros A l e n x H. rewrite nth_error_app1; [exact H|].
  apply nth_error_Some. rewrite H. discriminate.
Qed.

(** ** X14: [batch_process_tournament_sets] requests the slug of every
    shared tournament once, in map order; provided the ids are distinct (as
    the keys of a dict are), an id is in the returned map exactly when the
    request for its slug yields a tournament, and it maps to the object of
    that request. *)
Theorem sets_one_request_per_shared : forall fetch_ok log0 (shared : list (Z * shared)),
  NoDup (map fst shared) ->
  fst (batch_process_tournament_sets fetch_ok log0 shared) =
    log0 ++ map (fun it => sh_slug (snd it)) shared /\
  forall tid,
    (forall obj, dict_get Z.eqb (snd (batch_process_tournament_sets fetch_ok log0 shared)) tid = Some obj ->
       exists sh, dict_get Z.eqb shared tid = Some sh /\ fetch_ok (sh_slug sh) = true /\
         nth_error (fst (batch_process_tournament_sets fetch_ok log0 shared)) obj = Some (sh_slug sh)) /\
    (forall sh, dict_get Z.eqb shared tid = Some sh -> fetch_ok (sh_slug sh) = true ->
       exists obj, dict_get Z.eqb (snd (batch_process_tournament_sets fetch_ok log0 shared)) tid = Some obj).
Proof.
  intros fetch_ok log0 shared Hn. unfold batch_process_tournament_sets.
  match goal with |- context [fold_left ?fo (batches ?fu 12 shared) (log0, [])] =>
    set (f := fo); set (bs := batches fu 12 shared) end.
  assert (Hbs : List.concat bs = shared) by (apply batches_concat; lia).
  assert (Inv : forall done acc,
    fst acc = log0 ++ map (fun it => sh_slug (snd it)) (List.concat done) /\
    (forall tid obj, dict_get Z.eqb (snd acc) tid = Some obj ->
       exists sh, In (tid, sh) shared /\ fetch_ok (sh_slug sh) = true /\
                  nth_error (fst acc) obj = Some (sh_slug sh)) /\
    (forall tid sh, In (tid, sh) (List.concat done) -> fetch_ok (sh_slug sh) = true ->
       dict_get Z.eqb (snd acc) tid <> None) ->
    forall b, (forall it, In it b -> In it shared) ->
    fst (f acc b) = log0 ++ map (fun it => sh_slug (snd it)) (List.concat (done ++ [b])) /\
    (forall tid obj, dict_get Z.eqb (snd (f acc b)) tid = Some obj ->
       exists sh, In (tid, sh) shared /\ fetch_ok (sh_slug sh) = true /\
                  nth_error (fst (f acc b)) obj = Some (sh_slug sh)) /\
    (forall tid sh, In (tid, sh) (List.concat (done ++ [b])) -> fetch_ok (sh_slug sh) = true ->
       dict_get Z.eqb (snd (f acc b)) tid <> None)).
  { intros done [log details] [L [S C]] b Hb. cbn [fst snd] in L, S, C.
    unfold f. cbv beta iota.
    match goal with |- context [fold_left ?fi b (log, [])] =>
      pose proof (fold_inv fi
        (fun dn (acc : list string * list (Z * option nat)) =>
           fst acc = log ++ map (fun it => sh_slug (snd it)) dn /\
           (forall tid o, dict_get Z.eqb (snd acc) tid = Some o ->
              exists sh, In (tid, sh) b /\
                match o with
                | Some n => fetch_ok (sh_slug sh) = true /\ nth_error (fst acc) n = Some (sh_slug sh)
                | None => fetch_ok (sh_slug sh) = false
                end) /\
           (forall tid sh, In (tid, sh) dn -> dict_get Z.eqb (snd acc) tid <> None))
        b (log, [])) as Hin;
      destruct (fold_left fi b (log, [])) as [log' results] eqn:Ei end.
    destruct Hin as [L' [S' C']].
    { split; [rewrite app_nil_r; reflexivity|split; [intros tid o G; discriminate|intros tid sh []]]. }
    { intros dn [tid sh] [lg res] [L1 [S1 C1]] Hx. cbn [fst snd] in L1, S1, C1 |- *. split; [|split].
      - rewrite L1, map_app, app_assoc. reflexivity.
      - intros t o G. rewrite (dict_get_set Z.eqb Z_eqb_spec') in G.
        destruct (t =? tid) eqn:Et.
        + apply Z.eqb_eq in Et. subst t. injection G as <-. exists sh. split; [exact Hx|].
          destruct (fetch_ok (sh_slug sh)) eqn:F; [|reflexivity]. split; [reflexivity|].
          rewrite nth_error_app2 by lia. rewrite Nat.sub_diag. reflexivity.
        + destruct (S1 t o G) as [sh' [Hs Ho]]. exists sh'. split; [exact Hs|].
          destruct o as [n|]; [|exact Ho]. destruct Ho as [Ho1 Ho2].
          split; [exact Ho1|exact (nth_error_extend _ _ _ _ Ho2)].
      - intros t sh0 Hi. rewrite (dict_get_set Z.eqb Z_eqb_spec').
        destruct (t =? tid) eqn:Et; [discriminate|].
        apply in_app_or in Hi. destruct Hi as [Hi|[E|[]]]; [exact (C1 t sh0 Hi)|].
        injection E as <- <-. rewrite Z.eqb_refl in Et. discriminate. }
    cbn [fst snd] in L', S', C'.
    match goal with |- context [fold_left ?fs b details] =>
      pose proof (fold_inv fs
        (fun dn (d : list (Z * nat)) =>
           (forall tid obj, dict_get Z.eqb d tid = Some obj ->
              exists sh, In (tid, sh) shared /\ fetch_ok (sh_slug sh) = true /\
                         nth_error log' obj = Some (sh_slug sh)) /\
           (forall tid sh, In (tid, sh) (List.concat done ++ dn) -> fetch_ok (sh_slug sh) = true ->
              dict_get Z.eqb d tid <> None))
        b details) as Hst end.
    cbn [fst snd]. destruct Hst as [S2 C2].
    { split.
      - intros tid obj G. destruct (S tid obj G) as [sh [H1 [H2 H3]]]. exists sh.
        split; [exact H1|split; [exact H2|]]. rewrite L'. exact (nth_error_extend _ _ _ _ H3).
      - intros tid sh Hi F. rewrite app_nil_r in Hi. exact (C tid sh Hi F). }
    { intros dn [tid sh] d [S1 C1] Hx. cbn [fst snd].
      destruct (dict_get Z.eqb results tid) as [[obj|]|] eqn:R; split.
      - intros t o G. rewrite (dict_get_set Z.eqb Z_eqb_spec') in G. destruct (t =? tid) eqn:Et.
        + apply Z.eqb_eq in Et. subst t. injection G as <-.
          destruct (S' tid (Some obj) R) as [sh' [Hs [Ho1 Ho2]]]. exists sh'.
          split; [exact (Hb _ Hs)|split; assumption].
        + exact (S1 t o G).
      - intros t sh0 Hi F. rewrite (dict_get_set Z.eqb Z_eqb_spec').
        destruct (t =? tid) eqn:Et; [discriminate|].
        rewrite app_assoc in Hi. apply in_app_or in Hi. destruct Hi as [Hi|[E|[]]].
        + exact (C1 t sh0 Hi F).
        + injection E as <- <-. rewrite Z.eqb_refl in Et. discriminate.
      - exact S1.
      - intros t sh0 Hi F. rewrite app_assoc in Hi. apply in_app_or in Hi.
        destruct Hi as [Hi|[E|[]]]; [exact (C1 t sh0 Hi F)|].
        injection E as <- <-. destruct (S' tid None R) as [sh' [Hs Ho]].
        assert (E : sh' = sh).
        { pose proof (dict_get_nodup_in _ _ _ Hn (Hb _ Hs)) as G1.
          pose proof (dict_get_nodup_in _ _ _ Hn (Hb _ Hx)) as G2. congruence. }
        subst sh'. congruence.
      - exact S1.
      - intros t sh0 Hi F. rewrite app_assoc in Hi. apply in_app_or in Hi.
        destruct Hi as [Hi|[E|[]]]; [exact (C1 t sh0 Hi F)|].
        injection E as <- <-. exfalso. exact (C' tid sh Hx R). }
    split; [rewrite L', L, List.concat_app, map_app; cbn [List.concat]; rewrite app_nil_r, app_assoc; reflexivity|].
    split; [exact S2|]. rewrite List.concat_app. cbn [List.concat].
    rewrite app_nil_r. exact C2. }
  pose proof (fold_inv f
    (fun dn (acc : list string * list (Z * nat)) =>
       fst acc = log0 ++ map (fun it => sh_slug (snd it)) (List.concat dn) /\
       (forall tid obj, dict_get Z.eqb (snd acc) tid = Some obj ->
          exists sh, In (tid, sh) shared /\ fetch_ok (sh_slug sh) = true /\
                     nth_error (fst acc) obj = Some (sh_slug sh)) /\
       (forall tid sh, In (tid, sh) (List.concat dn) -> fetch_ok (sh_slug sh) = true ->
          dict_get Z.eqb (snd acc) tid <> None))
    bs (log0, [])) as Fin.
  destruct Fin as [FL [FS FC]].
  { split; [rewrite app_nil_r; reflexivity|split; [intros tid obj G; discriminate|intros tid sh []]]. }
  { intros dn x acc Hacc Hx. exact (Inv dn acc Hacc x (fun it Hi => in_batches _ _ _ _ _ Hx Hi)). }
  rewrite Hbs in FL, FC. split; [exact FL|]. intros tid. split.
  - intros obj G. destruct (FS tid obj G) as [sh [H1 [H2 H3]]]. exists sh.
    split; [exact (dict_get_nodup_in _ _ _ Hn H1)|split; assumption].
  - intros sh G F. apply (dict_get_in Z.eqb Z_eqb_spec') in G. pose proof (FC tid sh G F) as N.
    destruct (dict_get Z.eqb (snd (fold_left f bs (log0, []))) tid) as [o|];
      [exists o; reflexivity|contradiction].
Qed.

Lemma sets_one_request_per_shared_witness :
  NoDup (map fst shared_pair) /\
  (fst (batch_process_tournament_sets (String.eqb "tournament/a") ["seed"] shared_pair) =
    ["seed"] ++ map (fun it => sh_slug (snd it)) shared_pair /\
  forall tid,
    (forall obj, dict_get Z.eqb (snd (batch_process_tournament_sets (String.eqb "tournament/a") ["seed"]
                                       shared_pair)) tid = Some obj ->
       exists sh, dict_get Z.eqb shared_pair tid = Some sh /\
         String.eqb "tournament/a" (sh_slug sh) = true /\
         nth_error (fst (batch_process_tournament_sets (String.eqb "tournament/a") ["seed"]
                           shared_pair)) obj = Some (sh_slug sh)) /\
    (forall sh, dict_get Z.eqb shared_pair tid = Some sh ->
       String.eqb "tournament/a" (sh_slug sh) = true ->
       exists obj, dict_get Z.eqb (snd (batch_process_tournament_sets (String.eqb "tournament/a") ["seed"]
                                          shared_pair)) tid = Some obj)).
Proof.
  assert (Hn : NoDup (map fst shared_pair)).
  { vm_compute. constructor; [intros [E|[]]; discriminate|constructor; [intros []|constructor]]. }
  split; [exact Hn|]. exact (sets_one_request_per_shared (String.eqb "tournament/a") ["seed"] _ Hn).
Defined.

(** ** Reading tournament objects *)

(** Split a hypothesis [bind m k = Ok v]: [m] returned, and [k] was run. *)
Ltac bind_ok H :=
  repeat match type of H with
  | bind ?m _ = Ok _ =>
      let E := fresh "E" in
      destruct m eqn:E; cbn [bind] in H; [|discriminate H]
  end.

Lemma fpd_events_skip : forall t pid pre e post g,
  event_game e "Unknown" = Ok g -> py_eq_name g t = false ->
  fpd_events t pid (pre ++ e :: post) = fpd_events t pid (pre ++ post).
Proof.
  intros t pid pre e post g H H0. induction pre as [|x r IH]; cbn [app fpd_events].
  - rewrite H. cbn [bind]. rewrite H0. reflexivity.
  - rewrite IH. reflexivity.
Qed.

(** ** X15: [find_player_data] ignores an event of another game: removing
    it from the tournament's events does not change the result, whether
    it returns or raises. *)
Theorem other_game_event_ignored : forall t pid td td' pre e post g,
  py_get td "events" (JList []) = Ok (JList (pre ++ e :: post)) ->
  py_get td' "events" (JList []) = Ok (JList (pre ++ post)) ->
  event_game e "Unknown" = Ok g -> py_eq_name g t = false ->
  find_player_data t td pid = find_player_data t td' pid.
Proof.
  intros t pid td td' pre e post g H1 H2 H3 H4. unfold find_player_data.
  rewrite H1, H2. cbn [bind py_iter]. rewrite (fpd_events_skip t pid pre e post g H3 H4).
  reflexivity.
Qed.

Lemma other_game_event_ignored_witness :
  find_player_data (Some "SF6") (JObj [("events", JList [tekken_event; sf6_event])]) 7 =
  find_player_data (Some "SF6") (JObj [("events", JList [sf6_event])]) 7.
Proof.
  apply (other_game_event_ignored (Some "SF6") 7 _ _ [] tekken_event [sf6_event] (JStr "Tekken 8"));
    vm_compute; reflexivity.
Defined.

Lemma history_record_fields : forall tg fd details pid tag tid ti row,
  history_record tg fd details pid tag tid ti = Ok row ->
  hr_player_id row = pid /\ hr_player_tag row = tag /\ hr_tournament_id row = tid /\
  hr_tournament_name row = ti_name ti /\ hr_tournament_slug row = ti_slug ti /\
  (truthy (hr_placement row) = true \/
     (hr_placement row = JInt 0 /\ hr_event_name row = JStr "Unknown")) /\
  (truthy (hr_total_entrants row) = true \/ hr_total_entrants row = JInt 0) /\
  (dict_get Z.eqb details tid = None ->
     hr_placement row = JInt 0 /\ hr_event_name row = JStr "Unknown" /\
     hr_total_entrants row = JInt 0).
Proof.
  intros tg fd details pid tag tid ti row H. unfold history_record in H.
  destruct (dict_get Z.eqb details tid) as [td|] eqn:G.
  - destruct (find_player_data tg td pid) as [[[p en] te]|ex]; cbn [bind] in H; [|discriminate H].
    cbv zeta in H.
    destruct (truthy p) eqn:Tp; destruct (truthy te) eqn:Tt; injection H as <-; cbn;
      repeat split; try discriminate; auto.
  - injection H as <-. cbn. repeat split; auto.
Qed.

Lemma player_histories_rows : forall tg fd details pid tag ts rows,
  player_histories tg fd details pid tag ts = Ok rows ->
  Forall2 (fun kv row => history_record tg fd details pid tag (fst kv) (snd kv) = Ok row) ts rows.
Proof.
  intros tg fd details pid tag ts. induction ts as [|[tid ti] r IH]; intros rows H; cbn in H.
  - injection H as <-. constructor.
  - bind_ok H. injection H as <-. constructor; [exact E|exact (IH _ eq_refl)].
Qed.

Lemma combined_rows : forall tg fd pts details rows,
  create_combined_tournament_histories tg fd pts details = Ok rows ->
  Forall2 (fun it row => history_record tg fd details (fst it) (fst (snd it)) (fst (snd (snd it)))
                           (snd (snd (snd it))) = Ok row)
    (flat_map (fun pd => map (fun kv => (fst pd, (fst (snd pd), kv))) (snd (snd pd))) pts) rows.
Proof.
  intros tg fd pts details. induction pts as [|[pid [tag ts]] r IH]; intros rows H; cbn in H.
  - injection H as <-. constructor.
  - bind_ok H. injection H as <-. cbn [flat_map fst snd].
    apply Forall2_app; [|exact (IH _ eq_refl)].
    apply player_histories_rows in E. clear -E. induction E; constructor; [exact H|exact IHE].
Qed.

(** ** X16: the combined histories have one row per competitor and
    tournament of the competitor map, in map order: competitor by
    competitor, each competitor's tournaments in the order of its map,
    with the competitor's id and tag and the tournament's id, name and
    slug. *)
Theorem history_rows_follow_map : forall tg fd pts details rows,
  create_combined_tournament_histories tg fd pts details = Ok rows ->
  map (fun row => (hr_player_id row, hr_player_tag row, hr_tournament_id row,
                   hr_tournament_name row, hr_tournament_slug row)) rows =
  flat_map (fun pd => map (fun kv => (fst pd, fst (snd pd), fst kv, ti_name (snd kv), ti_slug (snd kv)))
                          (snd (snd pd))) pts.
Proof.
  intros tg fd pts details rows H. apply combined_rows in H.
  assert (E : flat_map (fun pd => map (fun kv => (fst pd, fst (snd pd), fst kv, ti_name (snd kv),
                                                  ti_slug (snd kv))) (snd (snd pd))) pts =
              map (fun it => (fst it, fst (snd it), fst (snd (snd it)),
                              ti_name (snd (snd (snd it))), ti_slug (snd (snd (snd it)))))
                  (flat_map (fun pd => map (fun kv => (fst pd, (fst (snd pd), kv))) (snd (snd pd))) pts)).
  { clear H. induction pts as [|pd r IHp]; [reflexivity|]. cbn [flat_map]. rewrite map_app, IHp, map_map.
    reflexivity. }
  rewrite E. clear E. induction H as [|it row l rs Hr _ IH]; [reflexivity|].
  cbn [map]. rewrite IH. destruct it as [pid [tag [tid ti]]]. cbn [fst snd] in Hr |- *.
  destruct (history_record_fields _ _ _ _ _ _ _ _ Hr) as [-> [-> [-> [-> [-> _]]]]]. reflexivity.
Qed.

Lemma history_rows_follow_map_witness :
  map (fun row => (hr_player_id row, hr_player_tag row, hr_tournament_id row,
                   hr_tournament_name row, hr_tournament_slug row))
    [{| hr_player_id := 7; hr_player_tag := "A"; hr_tournament_id := 1; hr_tournament_name := "Evo";
        hr_tournament_slug := "tournament/evo"; hr_tournament_date := "2025-07-03";
        hr_placement := JInt 3; hr_event_name := JStr "SF6 Singles"; hr_total_entrants := JInt 64 |};
     {| hr_player_id := 7; hr_player_tag := "A"; hr_tournament_id := 2; hr_tournament_name := "Evo";
        hr_tournament_slug := "tournament/evo"; hr_tournament_date := "2025-07-03";
        hr_placement := JInt 0; hr_event_name := JStr "Unknown"; hr_total_entrants := JInt 0 |}] =
  flat_map (fun pd => map (fun kv => (fst pd, fst (snd pd), fst kv, ti_name (snd kv), ti_slug (snd kv)))
                          (snd (snd pd))) [(7, ("A", [(1, evo_info); (2, evo_info)]))].
Proof.
  apply (history_rows_follow_map (Some "SF6") (fun _ => "2025-07-03")
           [(7, ("A", [(1, evo_info); (2, evo_info)]))] [(1, JObj [("events", JList [sf6_event])])]).
  vm_compute. reflexivity.
Defined.

(** ** X17: in every history row the placement is truthy, or it is [0]
    with the event name ['Unknown']; the entrant count is truthy or [0];
    and a tournament without details gets placement [0], event name
    ['Unknown'] and entrant count [0]. *)
Theorem history_rows_defaults : forall tg fd pts details rows,
  create_combined_tournament_histories tg fd pts details = Ok rows ->
  forall row, In row rows ->
  (truthy (hr_placement row) = true \/
     (hr_placement row = JInt 0 /\ hr_event_name row = JStr "Unknown")) /\
  (truthy (hr_total_entrants row) = true \/ hr_total_entrants row = JInt 0) /\
  (dict_get Z.eqb details (hr_tournament_id row) = None ->
     hr_placement row = JInt 0 /\ hr_event_name row = JStr "Unknown" /\
     hr_total_entrants row = JInt 0).
Proof.
  intros tg fd pts details rows H row Hin. apply combined_rows in H.
  induction H as [|it r l rs Hr _ IH]; [destruct Hin|]. destruct Hin as [<-|Hin]; [|exact (IH Hin)].
  destruct (history_record_fields _ _ _ _ _ _ _ _ Hr) as [_ [_ [E [_ [_ [P [T D]]]]]]].
  rewrite E. split; [exact P|split; [exact T|exact D]].
Qed.

Lemma history_rows_defaults_witness :
  (truthy (hr_placement absent_details_row) = true \/
     (hr_placement absent_details_row = JInt 0 /\ hr_event_name absent_details_row = JStr "Unknown")) /\
  (truthy (hr_total_entrants absent_details_row) = true \/ hr_total_entrants absent_details_row = JInt 0) /\
  (dict_get Z.eqb [(1, JObj [("events", JList [sf6_event])])] (hr_tournament_id absent_details_row) = None ->
     hr_placement absent_details_row = JInt 0 /\ hr_event_name absent_details_row = JStr "Unknown" /\
     hr_total_entrants absent_details_row = JInt 0).
Proof.
  apply (history_rows_defaults (Some "SF6") (fun _ => "2025-07-03")
           [(7, ("A", [(1, evo_info); (2, evo_info)]))] _
           [{| hr_player_id := 7; hr_player_tag := "A"; hr_tournament_id := 1;
               hr_tournament_name := "Evo"; hr_tournament_slug := "tournament/evo";
               hr_tournament_date := "2025-07-03"; hr_placement := JInt 3;
               hr_event_name := JStr "SF6 Singles"; hr_total_entrants := JInt 64 |};
            {| hr_player_id := 7; hr_player_tag := "A"; hr_tournament_id := 2;
               hr_tournament_name := "Evo"; hr_tournament_slug := "tournament/evo";
               hr_tournament_date := "2025-07-03"; hr_placement := JInt 0;
               hr_event_name := JStr "Unknown"; hr_total_entrants := JInt 0 |}]).
  - vm_compute. reflexivity.
  - right. left. reflexivity.
Defined.

(** ** Head-to-head extraction *)

Lemma extract_from_sets_sound : forall swap score targets tname sets ms m,
  extract_from_sets swap score targets tname sets = Ok ms -> In m ms ->
  exists sd, In sd sets /\
    analyze_set_for_h2h targets tname (swap sd) (score (set_id sd)) sd = Ok (Some m).
Proof.
  intros swap score targets tname sets. induction sets as [|sd r IH]; intros ms m H Hm; cbn in H.
  - injection H as <-. destruct Hm.
  - destruct (analyze_set_for_h2h targets tname (swap sd) (score (set_id sd)) sd) as [o|ex] eqn:A;
      cbn [bind] in H; [|discriminate H].
    bind_ok H. injection H as <-. destruct o as [o|].
    + destruct Hm as [<-|Hm]; [exists sd; split; [left; reflexivity|exact A]|].
      destruct (IH _ _ eq_refl Hm) as [sd' [H1 H2]]. exists sd'. split; [right; exact H1|exact H2].
    + destruct (IH _ _ eq_refl Hm) as [sd' [H1 H2]]. exists sd'. split; [right; exact H1|exact H2].
Qed.

Lemma extract_from_events_sound : forall tg swap score targets tname evs ms m,
  extract_from_events tg swap score targets tname evs = Ok ms -> In m ms ->
  exists e g sets sd, In e evs /\ ev_game e = Ok g /\ opt_str_eqb g tg = true /\
    ev_nodes e = Ok sets /\ In sd sets /\
    analyze_set_for_h2h targets tname (swap sd) (score (set_id sd)) sd = Ok (Some m).
Proof.
  intros tg swap score targets tname evs. induction evs as [|e r IH]; intros ms m H Hm; cbn in H.
  - injection H as <-. destruct Hm.
  - destruct (ev_game e) as [g|ex] eqn:G; cbn [bind] in H; [|discriminate H].
    destruct (opt_str_eqb g tg) eqn:T; cbn [negb] in H.
    + destruct (ev_nodes e) as [sets|ex] eqn:N; cbn [bind] in H; [|discriminate H].
      destruct (extract_from_sets swap score targets tname sets) as [ms1|ex] eqn:X;
        cbn [bind] in H; [|discriminate H].
      bind_ok H. injection H as <-. apply in_app_or in Hm. destruct Hm as [Hm|Hm].
      * destruct (extract_from_sets_sound _ _ _ _ _ _ _ X Hm) as [sd [H1 H2]].
        exists e, g, sets, sd. repeat split; try assumption. left. reflexivity.
      * destruct (IH _ _ eq_refl Hm) as [e' [g' [sets' [sd [H1 H2]]]]].
        exists e', g', sets', sd. split; [right; exact H1|exact H2].
    + destruct (IH _ _ H Hm) as [e' [g' [sets' [sd [H1 H2]]]]].
      exists e', g', sets', sd. split; [right; exact H1|exact H2].
Qed.

(** ** X18: every match record that [extract_head_to_head_matches]
    returns is the record [analyze_set_for_h2h] makes for a set of an
    event of the target game, in a tournament of the details map, with
    the targets being the ids of [target_players] and the tournament's
    name. *)
Theorem extracted_matches_sound : forall tg swap score details targets ms m,
  extract_head_to_head_matches tg swap score details targets = Ok ms -> In m ms ->
  exists tid td evs e g sets sd,
    In (tid, td) details /\ td_events td = Some evs /\ In e evs /\
    ev_game e = Ok g /\ opt_str_eqb g tg = true /\ ev_nodes e = Ok sets /\ In sd sets /\
    analyze_set_for_h2h (map fst targets) (td_name td) (swap sd) (score (set_id sd)) sd = Ok (Some m).
Proof.
  intros tg swap score details targets. induction details as [|[tid td] r IH]; intros ms m H Hm;
    cbn in H.
  - injection H as <-. destruct Hm.
  - destruct (extract_matches_from_tournament tg swap score td (map fst targets)) as [ms1|ex] eqn:X;
      cbn [bind] in H; [|discriminate H].
    bind_ok H. injection H as <-. apply in_app_or in Hm. destruct Hm as [Hm|Hm].
    + unfold extract_matches_from_tournament in X. destruct (td_events td) as [evs|] eqn:Ev;
        [|discriminate X].
      destruct (extract_from_events_sound _ _ _ _ _ _ _ _ X Hm) as [e [g [sets [sd [H1 H2]]]]].
      exists tid, td, evs, e, g, sets, sd. split; [left; reflexivity|split; [exact Ev|]].
      split; [exact H1|exact H2].
    + destruct (IH _ _ eq_refl Hm) as [tid' [td' [evs [e [g [sets [sd [H1 H2]]]]]]]].
      exists tid', td', evs, e, g, sets, sd. split; [right; exact H1|exact H2].
Qed.

Lemma extracted_matches_sound_witness :
  exists tid td evs e g sets sd,
    In (tid, td) [(1, sf6_tourney second_slot_wins)] /\ td_events td = Some evs /\ In e evs /\
    ev_game e = Ok g /\ opt_str_eqb g (Some "SF6") = true /\ ev_nodes e = Ok sets /\ In sd sets /\
    analyze_set_for_h2h (map fst [(7, "A"); (8, "B")]) (td_name td) ((fun _ => false) sd)
      ((fun _ => JNull) (set_id sd)) sd =
    Ok (Some {| player1_id := 7; player1_tag := Some "A"; player2_id := 8; player2_tag := Some "B";
                winner_id := 8; winner_tag := Some "B"; loser_id := 7; loser_tag := Some "A";
                score := "0-0"; h_set_id := 99; tournament_name := "T" |}).
Proof.
  apply (extracted_matches_sound (Some "SF6") (fun _ => false) (fun _ => JNull)
           [(1, sf6_tourney second_slot_wins)] [(7, "A"); (8, "B")]
           [{| player1_id := 7; player1_tag := Some "A"; player2_id := 8; player2_tag := Some "B";
               winner_id := 8; winner_tag := Some "B"; loser_id := 7; loser_tag := Some "A";
               score := "0-0"; h_set_id := 99; tournament_name := "T" |}]).
  - vm_compute. reflexivity.
  - left. reflexivity.
Defined.

(** ** The seed tournament's competitors and game *)

Lemma gtp_events_game_kept : forall evl players gn players' gn',
  gtp_events players gn evl = Ok (players', gn') -> truthy gn = true -> gn' = gn.
Proof.
  induction evl as [|e r IH]; intros players gn players' gn' H T; cbn [gtp_events] in H.
  - injection H as _ <-. reflexivity.
  - rewrite T in H. cbn [negb bind] in H.
    destruct (event_game e "Unknown") as [eg|ex]; cbn [bind] in H; [|discriminate H].
    destruct (negb (py_eq eg gn)); [exact (IH _ _ _ _ H T)|].
    bind_ok H. exact (IH _ _ _ _ H T).
Qed.

(** ** X19: the seed tournament's game is that of its first event: when
    [videogame.name] of the first event (default ['Unknown Game']) is
    truthy, it is the game [get_tournament_players_and_game] returns,
    whatever the later events are. *)
Theorem seed_game_from_first_event : forall data tt e1 rest g players game,
  py_index data "tournament" = Ok tt ->
  py_index tt "events" = Ok (JList (e1 :: rest)) ->
  event_game e1 "Unknown Game" = Ok g -> truthy g = true ->
  get_tournament_players_and_game data = Ok (players, game) ->
  game = g.
Proof.
  intros data tt e1 rest g players game H1 H2 H3 H4 H.
  unfold get_tournament_players_and_game in H.
  destruct data as [| | | | |kv]; try discriminate H1.
  destruct tt as [| | | | |kt]; try discriminate H2.
  cbn [truthy py_get] in H. cbn [py_index] in H1.
  destruct (dict_get String.eqb kv "tournament") as [t|] eqn:D; [|discriminate H1].
  injection H1 as ->.
  destruct kv as [|kv0 kvr]; [discriminate D|].
  cbn [py_index] in H2.
  destruct (dict_get String.eqb kt "events") as [evs|] eqn:D2; [|discriminate H2]. injection H2 as ->.
  destruct kt as [|kt0 ktr]; [discriminate D2|].
  cbn [bind truthy py_index py_iter] in H. rewrite D in H. cbn [bind py_index] in H.
  rewrite D2 in H. cbn [bind py_iter gtp_events truthy negb] in H. rewrite H3 in H.
  cbn [bind] in H.
  destruct (event_game e1 "Unknown") as [eg|ex]; cbn [bind] in H; [|discriminate H].
  destruct (negb (py_eq eg g)); [exact (gtp_events_game_kept _ _ _ _ _ H H4)|].
  bind_ok H. exact (gtp_events_game_kept _ _ _ _ _ H H4).
Qed.

Lemma seed_game_from_first_event_witness :
  get_tournament_players_and_game seed_payload =
    Ok ([(JInt 7, JObj [("id", JInt 7); ("gamerTag", JStr "A")]);
         (JInt 8, JObj [("id", JInt 8); ("gamerTag", JStr "B")])], JStr "SF6") /\
  JStr "SF6" = JStr "SF6".
Proof.
  assert (H : get_tournament_players_and_game seed_payload =
    Ok ([(JInt 7, JObj [("id", JInt 7); ("gamerTag", JStr "A")]);
         (JInt 8, JObj [("id", JInt 8); ("gamerTag", JStr "B")])], JStr "SF6"))
    by (vm_compute; reflexivity).
  split; [exact H|].
  apply (seed_game_from_first_event seed_payload seed_tournament seed_event [] (JStr "SF6")
           [(JInt 7, JObj [("id", JInt 7); ("gamerTag", JStr "A")]);
            (JInt 8, JObj [("id", JInt 8); ("gamerTag", JStr "B")])] (JStr "SF6"));
    [vm_compute; reflexivity..|exact H].
Defined.

Lemma in_dict_set_any : forall {K V : Type} (eqb : K -> K -> bool) (d : list (K * V)) k v x,
  In x (dict_set eqb d k v) ->
  In x d \/ x = (k, v) \/ exists k' v', In (k', v') d /\ x = (k', v) /\ eqb k k' = true.
Proof.
  intros K V eqb d k v x. induction d as [|[k1 v1] r IH]; cbn [dict_set In]; intros H.
  - destruct H as [<-|[]]. right. left. reflexivity.
  - destruct (eqb k k1) eqn:E.
    + destruct H as [<-|H]; [right; right; exists k1, v1; split; [left; reflexivity|split; [reflexivity|exact E]]|].
      left. right. exact H.
    + destruct H as [<-|H]; [left; left; reflexivity|].
      destruct (IH H) as [H'|[H'|[k' [v' [H1 H2]]]]].
      * left. right. exact H'.
      * right. left. exact H'.
      * right. right. exists k', v'. split; [right; exact H1|exact H2].
Qed.

Lemma py_eq_refl_hashable : forall j, py_hashable j = true -> py_eq j j = true.
Proof.
  intros [|b|z|s|l|kv] H; cbn; try discriminate H.
  - reflexivity.
  - apply Z.eqb_refl.
  - apply Z.eqb_refl.
  - apply String.eqb_refl.
Qed.

Lemma gtp_participants_ok : forall ps players players',
  Forall seed_entry_ok players -> gtp_participants players ps = Ok players' ->
  Forall seed_entry_ok players'.
Proof.
  induction ps as [|p r IH]; intros players players' F H; cbn [gtp_participants] in H.
  - injection H as <-. exact F.
  - destruct (py_index p "player") as [player|ex]; cbn [bind] in H; [|discriminate H].
    destruct (py_index player "id") as [id|ex] eqn:I; cbn [bind] in H; [|discriminate H].
    destruct (py_hashable id) eqn:Hh; [|discriminate H].
    refine (IH _ _ _ H). apply Forall_forall. intros x Hx.
    destruct (in_dict_set_any py_eq players id player x Hx) as [Hx'|[->|[k' [v' [H1 [-> H3]]]]]].
    + exact (proj1 (Forall_forall _ _) F x Hx').
    + split; [exact Hh|]. exists id. split; [exact I|exact (py_eq_refl_hashable id Hh)].
    + destruct (proj1 (Forall_forall _ _) F _ H1) as [Hk _]. split; [exact Hk|].
      exists id. split; [exact I|exact H3].
Qed.

Lemma gtp_entrants_ok : forall ents players players',
  Forall seed_entry_ok players -> gtp_entrants players ents = Ok players' ->
  Forall seed_entry_ok players'.
Proof.
  induction ents as [|en r IH]; intros players players' F H; cbn [gtp_entrants] in H.
  - injection H as <-. exact F.
  - destruct (py_index en "participants") as [ps|ex]; cbn [bind] in H; [|discriminate H].
    destruct (py_iter ps) as [psl|ex]; cbn [bind] in H; [|discriminate H].
    destruct (gtp_participants players psl) as [p1|ex] eqn:G; cbn [bind] in H; [|discriminate H].
    exact (IH _ _ (gtp_participants_ok _ _ _ F G) H).
Qed.

Lemma gtp_events_ok : forall evl players gn players' gn',
  Forall seed_entry_ok players -> gtp_events players gn evl = Ok (players', gn') ->
  Forall seed_entry_ok players'.
Proof.
  induction evl as [|e r IH]; intros players gn players' gn' F H; cbn [gtp_events] in H.
  - injection H as <- _. exact F.
  - destruct (if negb (truthy gn) then event_game e "Unknown Game" else Ok gn) as [g|ex];
      cbn [bind] in H; [|discriminate H].
    destruct (event_game e "Unknown") as [eg|ex]; cbn [bind] in H; [|discriminate H].
    destruct (negb (py_eq eg g)); [exact (IH _ _ _ _ F H)|].
    destruct (py_get e "entrants" (JObj [])) as [ents|ex]; cbn [bind] in H; [|discriminate H].
    destruct (py_get ents "nodes" (JList [])) as [nodes|ex]; cbn [bind] in H; [|discriminate H].
    destruct (py_iter nodes) as [entl|ex]; cbn [bind] in H; [|discriminate H].
    destruct (gtp_entrants players entl) as [p1|ex] eqn:G; cbn [bind] in H; [|discriminate H].
    exact (IH _ _ _ _ (gtp_entrants_ok _ _ _ F G) H).
Qed.

(** ** X20: every key of the competitor map returned by
    [get_tournament_players_and_game] is hashable (an unhashable id
    raises [TypeError] instead of being stored), and is mapped to a
    [player] object whose ['id'] equals the key; when two participants
    have equal ids, the key first stored stays and the later player
    object replaces the value. *)
Theorem seed_players_keyed_by_id : forall data players game,
  get_tournament_players_and_game data = Ok (players, game) ->
  forall k v, In (k, v) players ->
  py_hashable k = true /\ exists id, py_index v "id" = Ok id /\ py_eq id k = true.
Proof.
  intros data players game H k v Hin.
  assert (F : Forall seed_entry_ok players).
  { unfold get_tournament_players_and_game in H.
    destruct (truthy data); [|injection H as <- _; constructor].
    destruct (py_get data "tournament" JNull) as [t|ex]; cbn [bind] in H; [|discriminate H].
    destruct (truthy t); [|injection H as <- _; constructor].
    destruct (py_index data "tournament") as [tt|ex]; cbn [bind] in H; [|discriminate H].
    destruct (py_index tt "events") as [evs|ex]; cbn [bind] in H; [|discriminate H].
    destruct (py_iter evs) as [evl|ex]; cbn [bind] in H; [|discriminate H].
    exact (gtp_events_ok _ _ _ _ _ (Forall_nil _) H). }
  exact (proj1 (Forall_forall _ _) F (k, v) Hin).
Qed.

Lemma seed_players_keyed_by_id_witness :
  py_hashable (JInt 8) = true /\
  exists id, py_index (JObj [("id", JInt 8); ("gamerTag", JStr "B")]) "id" = Ok id /\
             py_eq id (JInt 8) = true.
Proof.
  apply (seed_players_keyed_by_id seed_payload
           [(JInt 7, JObj [("id", JInt 7); ("gamerTag", JStr "A")]);
            (JInt 8, JObj [("id", JInt 8); ("gamerTag", JStr "B")])] (JStr "SF6")).
  - vm_compute. reflexivity.
  - right. left. reflexivity.
Defined.

(** ** Output file names *)

Lemma has_char_app : forall c a b, has_char c (a ++ b) = has_char c a || has_char c b.
Proof.
  intros c a b. induction a as [|d r IH]; cbn [append has_char]; [reflexivity|].
  rewrite IH. apply orb_assoc.
Qed.

Lemma replace_char_removes : forall old new s,
  Ascii.eqb new old = false -> has_char old (replace_char old new s) = false.
Proof.
  intros old new s Hn. induction s as [|c r IH]; cbn [replace_char has_char]; [reflexivity|].
  rewrite IH, orb_false_r. destruct (Ascii.eqb c old) eqn:E; [exact Hn|exact E].
Qed.

Lemma uint_str_no_slash : forall u, has_char "/" (uint_str u) = false.
Proof.
  induction u; cbn [uint_str]; rewrite ?has_char_app, ?IHu; reflexivity.
Qed.

Lemma z_str_no_slash : forall z, has_char "/" (z_str z) = false.
Proof.
  intros z. unfold z_str. destruct (Z.to_int z); rewrite ?has_char_app, uint_str_no_slash; reflexivity.
Qed.

Lemma timestamp_no_slash : forall t, has_char "/" (timestamp_str t) = false.
Proof.
  intros t. unfold timestamp_str, pad2.
  rewrite !has_char_app, !z_str_no_slash.
  repeat match goal with |- context [if ?b then _ else _] => destruct b end;
    rewrite ?has_char_app, ?z_str_no_slash; reflexivity.
Qed.

(** ** X21: the CSV file names of [save_tournament_data] and
    [save_head_to_head_data] never contain a ['/'], whatever the target
    slug and the date: the files are written in the working directory. *)
Theorem file_names_have_no_slash : forall target_slug now hist h2hs name,
  has_char "/" (save_tournament_data target_slug now hist) = false /\
  (save_head_to_head_data target_slug now h2hs = Some name -> has_char "/" name = false).
Proof.
  intros target_slug now hist h2hs name. split.
  - unfold save_tournament_data.
    rewrite !has_char_app, replace_char_removes, timestamp_no_slash by reflexivity. reflexivity.
  - unfold save_head_to_head_data. destruct h2hs as [|h t]; intros H; [discriminate H|].
    replace name with ("head_to_head_matches_" ++ replace_char "/" "_" target_slug ++ "_" ++
                       timestamp_str now ++ ".csv")%string by congruence.
    rewrite !has_char_app, replace_char_removes, timestamp_no_slash by reflexivity. reflexivity.
Qed.
